(** * place_objects.py: the row iteration and placement engine

    A shallow embedding of [src/main/place_objects.py].  Python integers are
    unbounded, so they are [Z]; [//] and [%] are floor division and the
    matching remainder, which is what [Z.div] and [Z.modulo] compute, except
    that Python raises [ZeroDivisionError] on a zero divisor.

    The script talks to the screen through [pyautogui] and to the clock
    through [time.sleep].  Every such call is recorded, in order, in a trace
    of events.  The calls whose failure the source handles itself
    ([Path.exists], [locateOnScreen], [size], [pixelMatchesColor]) get their
    answer from an environment; the answer of a pixel sample may depend on
    everything that happened before it (the trace so far).

    The remaining calls ([scroll], [moveTo], [click], [sleep], [print],
    [position]) are taken to return normally: the delays are durations (not
    negative, so [time.sleep] accepts them) and the pointer is not in a
    corner of the screen (so the fail-safe that line 143 switches on is not
    tripped).  What is proved of a live run is proved of the runs in which
    that is so.

    One name the source uses does not exist: [pyautogui] has [Point] and
    [Size] but no [Box] (the named tuple of that name lives in [pyscreeze]),
    so evaluating [pyautogui.Box] raises [AttributeError]. *)

From Stdlib Require Import ZArith List String Bool Lia QArith.
From Stdlib Require Import DecimalString.
Import ListNotations.

Local Open Scope string_scope.
Local Open Scope list_scope.
Local Open Scope Z_scope.

(** ** Data model *)

Definition rgb : Type := (Z * Z * Z)%type.
Definition point : Type := (Z * Z)%type.

(** The [Box] named tuple that [locateOnScreen] returns (annotated
    [pyautogui.Box] at line 55; the annotation is never evaluated). *)
Record Box := mkBox { left : Z; top : Z; width : Z; height : Z }.

(** The dataclass [PlacementConfig]; the [float] fields are only handed on to
    [time.sleep] and [locateOnScreen], and are kept as rationals. *)
Record PlacementConfig := mkConfig {
  anchor_template : string;
  row_height : Z;
  list_offset_x : Z;
  list_offset_y : Z;
  screen_height : option Z;
  spacing_pixels : Z;
  per_row : Z;
  click_delay : Q;
  place_delay : Q;
  scroll_clicks_per_row : Z;
  scroll_delay : Q;
  limit : option Z;
  confidence : Q;
  placement_origin : option point;
  category_color : option rgb;
  category_color_tolerance : Z;
  category_icon_offset_x : Z;
  item_color : option rgb;
  item_color_tolerance : Z;
  item_color_offset_x : Z;
  item_color_offset_y : Z;
  require_item_color : bool;
  dry_run : bool
}.

(** The field defaults of the dataclass. *)
Definition default_config (template : string) : PlacementConfig :=
  {| anchor_template := template;
     row_height := 26;
     list_offset_x := 10;
     list_offset_y := 40;
     screen_height := None;
     spacing_pixels := 120;
     per_row := 15;
     click_delay := (5 # 100)%Q;
     place_delay := (1 # 10)%Q;
     scroll_clicks_per_row := 3;
     scroll_delay := (15 # 100)%Q;
     limit := None;
     confidence := (9 # 10)%Q;
     placement_origin := None;
     category_color := None;
     category_color_tolerance := 8;
     category_icon_offset_x := -14;
     item_color := Some (142, 125, 18);
     item_color_tolerance := 10;
     item_color_offset_x := 26;
     item_color_offset_y := 12;
     require_item_color := true;
     dry_run := false |}.

(** ** Events, environment and exceptions *)

Inductive event :=
| EExists (template : string) (answer : bool)
| ELocate (template : string) (conf : Q) (answer : option Box)
| ESetFailsafe
| EPosition (answer : point)
| ESize (answer : option Z)
| ESample (x y : Z) (color : rgb) (tolerance : Z) (answer : option bool)
| EScroll (amount x y : Z)
| ESleep (seconds : Q)
| EMoveTo (x y : Z)
| EClick
| EPrint (line : string).

Definition trace := list event.

(** What the outside world answers.  [None] stands for a raised exception
    ([size], [pixelMatchesColor]) or for [locateOnScreen] returning [None]. *)
Record Env := mkEnv {
  template_exists : bool;
  locateOnScreen : option Box;
  position : point;
  size_height : option Z;
  pixelMatchesColor : trace -> Z -> Z -> rgb -> Z -> option bool
}.

Inductive exn :=
| RuntimeError (msg : string)
| ZeroDivisionError
| SamplingError
| AttributeError.

Inductive result (A : Type) :=
| Ok (a : A) (h : trace)
| Raise (e : exn) (h : trace).
Arguments Ok {A} a h.
Arguments Raise {A} e h.

(** ** A trace-and-exception monad *)

Definition M (A : Type) : Type := trace -> result A.

Definition ret {A} (a : A) : M A := fun h => Ok a h.

Definition bind {A B} (m : M A) (f : A -> M B) : M B :=
  fun h => match m h with
           | Ok a h' => f a h'
           | Raise e h' => Raise e h'
           end.

Definition raise {A} (e : exn) : M A := fun h => Raise e h.

Definition emit (e : event) : M unit := fun h => Ok tt (h ++ [e]).

(** [try: m  except Exception: handler] *)
Definition try_except {A} (m : M A) (handler : M A) : M A :=
  fun h => match m h with
           | Ok a h' => Ok a h'
           | Raise _ h' => handler h'
           end.

Declare Scope py_scope.
Delimit Scope py_scope with py.
Notation "x <- m ;; k" := (bind m (fun x => k))
  (at level 61, m at next level, right associativity) : py_scope.
Notation "' pat <- m ;; k" := (bind m (fun x => match x with pat => k end))
  (at level 61, pat pattern, m at next level, right associativity) : py_scope.
Notation "m ;; k" := (bind m (fun _ => k))
  (at level 61, right associativity) : py_scope.
Local Open Scope py_scope.

(** ** Python arithmetic and formatting *)

Definition py_floordiv (a b : Z) : M Z :=
  if b =? 0 then raise ZeroDivisionError else ret (a / b).

Definition py_mod (a b : Z) : M Z :=
  if b =? 0 then raise ZeroDivisionError else ret (a mod b).

(** [str] of an [int] *)
Definition str_int (z : Z) : string := NilZero.string_of_int (Z.to_int z).

(** [str] of a pair of [int]s, as an f-string prints a tuple *)
Definition str_pair (p : point) : string :=
  ("(" ++ str_int (fst p) ++ ", " ++ str_int (snd p) ++ ")")%string.

(** ** The library calls *)

Section Calls.
Variable env : Env.

Definition path_exists (template : string) : M bool :=
  emit (EExists template (template_exists env)) ;; ret (template_exists env).

Definition pyautogui_locateOnScreen (template : string) (conf : Q)
  : M (option Box) :=
  emit (ELocate template conf (locateOnScreen env)) ;; ret (locateOnScreen env).

Definition pyautogui_position : M point :=
  emit (EPosition (position env)) ;; ret (position env).

Definition pyautogui_size_height : M Z :=
  emit (ESize (size_height env)) ;;
  match size_height env with
  | Some hgt => ret hgt
  | None => raise SamplingError
  end.

Definition pyautogui_pixelMatchesColor (x y : Z) (color : rgb) (tol : Z)
  : M bool :=
  fun h =>
    let answer := pixelMatchesColor env h x y color tol in
    let h' := h ++ [ESample x y color tol answer] in
    match answer with
    | Some b => Ok b h'
    | None => Raise SamplingError h'
    end.

(** [pyautogui.Box(left, top, width, height)]: the attribute lookup fails
    before anything is built. *)
Definition pyautogui_Box (l t w hgt : Z) : M Box := raise AttributeError.

(** The calls below are recorded and return normally: the pointer is taken
    to stay out of the screen corners (no [FailSafeException]) and the
    delays to be non-negative (no [ValueError] from [time.sleep]). *)
Definition pyautogui_scroll (amount x y : Z) : M unit := emit (EScroll amount x y).
Definition pyautogui_moveTo (p : point) : M unit := emit (EMoveTo (fst p) (snd p)).
Definition pyautogui_click : M unit := emit EClick.
Definition time_sleep (seconds : Q) : M unit := emit (ESleep seconds).
Definition print (line : string) : M unit := emit (EPrint line).

(** ** locate_anchor *)
Definition locate_anchor (template : string) (conf : Q) : M Box :=
  ex <- path_exists template ;;
  if negb ex then
    raise (RuntimeError ("anchor template not found: " ++ template)%string)
  else
    location <- pyautogui_locateOnScreen template conf ;;
    match location with
    | None =>
        raise (RuntimeError
          ("Could not find anchor on screen. Make sure the 3DEN object browser "
           ++ "is visible and matches the template screenshot.")%string)
    | Some box => ret box
    end.

(** ** safe_screen_height *)
Definition safe_screen_height (default : Z) : M Z :=
  try_except pyautogui_size_height (ret default).

(** ** is_category_row *)
Definition is_category_row (list_x list_y : Z) (cfg : PlacementConfig) : M bool :=
  match category_color cfg with
  | None => ret false
  | Some color =>
      let icon_x := list_x + category_icon_offset_x cfg in
      try_except
        (pyautogui_pixelMatchesColor icon_x list_y color
           (category_color_tolerance cfg))
        (ret false)
  end.

(** ** row_has_item_color *)
Definition row_has_item_color (list_x list_y : Z) (cfg : PlacementConfig) : M bool :=
  match item_color cfg with
  | None => ret true
  | Some color =>
      if negb (require_item_color cfg) then ret true
      else
        let sample_x := list_x + item_color_offset_x cfg in
        let sample_y := list_y + item_color_offset_y cfg in
        try_except
          (pyautogui_pixelMatchesColor sample_x sample_y color
             (item_color_tolerance cfg))
          (ret false)
  end.
End Calls.

(** ** place_objects *)

(** The locals of [place_objects] that are fixed before the loop starts. *)
Record locals := mkLocals {
  list_start_x : Z;
  list_start_y : Z;
  resolved_origin : point;
  visible_rows : Z
}.

(** The locals the loop updates. *)
Record loop_state := mkState {
  scroll_rows_consumed : Z;
  placed : Z;
  index : Z
}.

Definition initial_state : loop_state :=
  {| scroll_rows_consumed := 0; placed := 0; index := 0 |}.

Inductive pyval :=
| PyNone
| PyInt (z : Z).

(** How a run of the loop for at most [fuel] iterations ends: the function
    returned (with the value it returned and the locals it ended with), or the
    loop was still running. *)
Inductive outcome :=
| Returned (value : pyval) (final : loop_state)
| Running (st : loop_state).

Section PlaceObjects.
Variable env : Env.
Variable cfg : PlacementConfig.

(** Lines 137-150: everything before the loop. *)
Definition setup : M locals :=
  anchor <- (if dry_run cfg then pyautogui_Box 0 0 0 0
             else locate_anchor env (anchor_template cfg) (confidence cfg)) ;;
  emit ESetFailsafe ;;
  let lsx := left anchor + list_offset_x cfg in
  let lsy := top anchor + list_offset_y cfg in
  origin <- match placement_origin cfg with
            | Some p => ret p
            | None => pyautogui_position env
            end ;;
  hgt <- match screen_height cfg with
         | Some hgt => if hgt =? 0 then safe_screen_height env 1080 else ret hgt
         | None => safe_screen_height env 1080
         end ;;
  rows <- py_floordiv (hgt - lsy) (row_height cfg) ;;
  ret {| list_start_x := lsx;
         list_start_y := lsy;
         resolved_origin := origin;
         visible_rows := Z.max 1 rows |}.

Variable lc : locals.

(** Line 156: the loop condition. *)
Definition loop_condition (st : loop_state) : bool :=
  match limit cfg with
  | None => true
  | Some l => placed st <? l
  end.

(** Lines 157-165: scroll until the row is in view; gives the updated
    [scroll_rows_consumed] and [row_in_view]. *)
Definition scroll_into_view (st : loop_state) : M (Z * Z) :=
  let row_in_view := index st - scroll_rows_consumed st in
  if row_in_view >=? visible_rows lc then
    let rows_to_scroll := row_in_view - visible_rows lc + 1 in
    let scroll_amount := - scroll_clicks_per_row cfg * rows_to_scroll in
    (if negb (dry_run cfg) then
       pyautogui_scroll scroll_amount (list_start_x lc) (list_start_y lc) ;;
       time_sleep (scroll_delay cfg)
     else ret tt) ;;
    let consumed := scroll_rows_consumed st + rows_to_scroll in
    ret (consumed, index st - consumed)
  else ret (scroll_rows_consumed st, row_in_view).

(** Lines 178-183: the grid position of placement number [n]. *)
Definition world_pos (n : Z) : M point :=
  col <- py_mod n (per_row cfg) ;;
  row <- py_floordiv n (per_row cfg) ;;
  ret (fst (resolved_origin lc) + col * spacing_pixels cfg,
       snd (resolved_origin lc) + row * spacing_pixels cfg).

(** Lines 157-197: one iteration of the loop. *)
Definition loop_body (st : loop_state) : M loop_state :=
  '(consumed, row_in_view) <- scroll_into_view st ;;
  let list_pos := (list_start_x lc, list_start_y lc + row_in_view * row_height cfg) in
  is_cat <- (if negb (dry_run cfg)
             then is_category_row env (fst list_pos) (snd list_pos) cfg
             else ret false) ;;
  if is_cat then
    ret {| scroll_rows_consumed := consumed; placed := placed st;
           index := index st + 1 |}
  else
    no_item <- (if negb (dry_run cfg)
                then b <- row_has_item_color env (fst list_pos) (snd list_pos) cfg ;;
                     ret (negb b)
                else ret false) ;;
    if no_item then
      print ("Skipping row " ++ str_int (index st)
             ++ ": item color not detected at " ++ str_pair list_pos ++ ".")%string ;;
      ret {| scroll_rows_consumed := consumed; placed := placed st;
             index := index st + 1 |}
    else
      wpos <- world_pos (placed st) ;;
      (if dry_run cfg then
         print ("Would click list entry at " ++ str_pair list_pos
                ++ " and place at " ++ str_pair wpos)%string
       else
         pyautogui_moveTo list_pos ;;
         pyautogui_click ;;
         time_sleep (click_delay cfg) ;;
         pyautogui_moveTo wpos ;;
         pyautogui_click ;;
         time_sleep (place_delay cfg)) ;;
      ret {| scroll_rows_consumed := consumed; placed := placed st + 1;
             index := index st + 1 |}.

(** Lines 156-197: the loop, for at most [fuel] iterations.  Falling off
    the end of the function returns [None]. *)
Fixpoint while_loop (fuel : nat) (st : loop_state) : M outcome :=
  if negb (loop_condition st) then ret (Returned PyNone st)
  else match fuel with
       | O => ret (Running st)
       | S fuel' => st' <- loop_body st ;; while_loop fuel' st'
       end.

(** [n] iterations of the loop body with the loop condition left out. *)
Fixpoint iterate (n : nat) (st : loop_state) : M loop_state :=
  match n with
  | O => ret st
  | S n' => st' <- loop_body st ;; iterate n' st'
  end.
End PlaceObjects.

Definition place_objects (env : Env) (cfg : PlacementConfig) (fuel : nat) : M outcome :=
  lc <- setup env cfg ;;
  while_loop env cfg lc fuel initial_state.

(** ** Observing traces *)

Definition is_click (e : event) : bool :=
  match e with EClick => true | _ => false end.
Definition is_move (e : event) : bool :=
  match e with EMoveTo _ _ => true | _ => false end.
Definition is_scroll (e : event) : bool :=
  match e with EScroll _ _ _ => true | _ => false end.
Definition is_sample (e : event) : bool :=
  match e with ESample _ _ _ _ _ => true | _ => false end.
Definition is_sleep (e : event) : bool :=
  match e with ESleep _ => true | _ => false end.
Definition is_print (e : event) : bool :=
  match e with EPrint _ => true | _ => false end.
Definition is_locate (e : event) : bool :=
  match e with EExists _ _ | ELocate _ _ _ => true | _ => false end.

(** How many events of a trace satisfy [p]. *)
Definition count (p : event -> bool) (t : trace) : Z :=
  Z.of_nat (List.length (filter p t)).

Lemma count_app p t1 t2 : count p (t1 ++ t2) = count p t1 + count p t2.
Proof. unfold count. rewrite filter_app, length_app. lia. Qed.

Lemma count_nil p : count p [] = 0.
Proof. reflexivity. Qed.

Lemma count_nonneg p t : 0 <= count p t.
Proof. unfold count. lia. Qed.

Lemma count_zero_Forall p t : count p t = 0 <-> Forall (fun e => p e = false) t.
Proof.
  unfold count. induction t as [|e t IH]; simpl.
  - split; auto.
  - destruct (p e) eqn:E; simpl.
    + split; [lia | intros F; inversion F; congruence].
    + rewrite IH. split; [intros F; constructor; assumption | intros F; inversion F; assumption].
Qed.

(** ** The loop body, case by case *)

Ltac unfold_py :=
  unfold loop_body, scroll_into_view, world_pos, is_category_row,
    row_has_item_color, pyautogui_pixelMatchesColor, pyautogui_scroll,
    pyautogui_moveTo, pyautogui_click, time_sleep, print, py_mod, py_floordiv,
    try_except, bind, ret, raise, emit in *.

Ltac split_match H :=
  repeat match type of H with
         | context [match ?x with _ => _ end] =>
             lazymatch x with
             | context [match _ with _ => _ end] => fail
             | _ => let E := fresh "E" in
                    destruct x eqn:E; simpl in H; try discriminate H
             end
         end.

#[local] Arguments str_int : simpl never.
#[local] Arguments str_pair : simpl never.
#[local] Arguments String.append : simpl never.

Section LoopFacts.
Variable env : Env.
Variable cfg : PlacementConfig.
Variable lc : locals.

(** The events the scroll step of an iteration adds. *)
Definition scroll_events (st : loop_state) : trace :=
  let row_in_view := index st - scroll_rows_consumed st in
  if row_in_view >=? visible_rows lc then
    if dry_run cfg then []
    else [EScroll (- scroll_clicks_per_row cfg * (row_in_view - visible_rows lc + 1))
            (list_start_x lc) (list_start_y lc);
          ESleep (scroll_delay cfg)]
  else [].

Lemma scroll_into_view_eq st h :
  scroll_into_view cfg lc st h =
  let row_in_view := index st - scroll_rows_consumed st in
  if row_in_view >=? visible_rows lc then
    let consumed := scroll_rows_consumed st + (row_in_view - visible_rows lc + 1) in
    Ok (consumed, index st - consumed) (h ++ scroll_events st)
  else Ok (scroll_rows_consumed st, row_in_view) (h ++ scroll_events st).
Proof.
  unfold scroll_into_view, scroll_events; cbv zeta.
  destruct (index st - scroll_rows_consumed st >=? visible_rows lc).
  - destruct (dry_run cfg); unfold_py; simpl.
    + now rewrite app_nil_r.
    + now rewrite <- app_assoc.
  - unfold ret. now rewrite app_nil_r.
Qed.

Lemma scroll_events_scrolls st :
  count is_scroll (scroll_events st) =
  if (index st - scroll_rows_consumed st >=? visible_rows lc) && negb (dry_run cfg)
  then 1 else 0.
Proof.
  unfold scroll_events; cbv zeta.
  destruct (_ >=? _); simpl; [destruct (dry_run cfg)|]; reflexivity.
Qed.

Lemma scroll_events_no_click st : count is_click (scroll_events st) = 0.
Proof.
  unfold scroll_events; cbv zeta.
  destruct (_ >=? _); simpl; [destruct (dry_run cfg)|]; reflexivity.
Qed.

Lemma scroll_events_no_print st : count is_print (scroll_events st) = 0.
Proof.
  unfold scroll_events; cbv zeta.
  destruct (_ >=? _); simpl; [destruct (dry_run cfg)|]; reflexivity.
Qed.

(** What a completed iteration did: the index advances by one, the scroll
    offset is the one [scroll_into_view] computed, and the row was either
    skipped (no click) or placed (two clicks, or one printed line in a dry
    run). *)
Lemma loop_body_ok st h st' h' :
  loop_body env cfg lc st h = Ok st' h' ->
  exists c riv row_evs,
    scroll_into_view cfg lc st h = Ok (c, riv) (h ++ scroll_events st) /\
    h' = h ++ scroll_events st ++ row_evs /\
    index st' = index st + 1 /\
    scroll_rows_consumed st' = c /\
    count is_scroll row_evs = 0 /\
    ((placed st' = placed st /\ count is_click row_evs = 0 /\ dry_run cfg = false) \/
     (placed st' = placed st + 1 /\
      count is_click row_evs = (if dry_run cfg then 0 else 2) /\
      count is_print row_evs = (if dry_run cfg then 1 else 0))).
Proof.
  intros H. unfold loop_body in H. unfold bind at 1 in H.
  rewrite scroll_into_view_eq in H. rewrite scroll_into_view_eq.
  cbv zeta in *.
  destruct (index st - scroll_rows_consumed st >=? visible_rows lc);
    unfold_py; destruct (dry_run cfg) eqn:Edry; simpl in H;
    split_match H; inversion H; subst; clear H;
    do 3 eexists; (split; [reflexivity|]);
    rewrite <- ?app_assoc; simpl;
    (split; [reflexivity|]); repeat split; auto.
Qed.
End LoopFacts.

(** ** Facts about the set-up *)

(** The screen height the set-up settles on: the configured one unless it is
    [None] or [0], else the detected one, else 1080. *)
Definition resolved_screen_height (env : Env) (cfg : PlacementConfig) : Z :=
  let detected := match size_height env with Some hgt => hgt | None => 1080 end in
  match screen_height cfg with
  | Some hgt => if hgt =? 0 then detected else hgt
  | None => detected
  end.

(** The anchor the set-up uses once it got past [locate_anchor]. *)
Definition resolved_anchor (env : Env) (cfg : PlacementConfig) : Box :=
  match locateOnScreen env with Some b => b | None => mkBox 0 0 0 0 end.

Definition resolved_placement_origin (env : Env) (cfg : PlacementConfig) : point :=
  match placement_origin cfg with Some p => p | None => position env end.

Ltac unfold_setup :=
  unfold setup, locate_anchor, path_exists, pyautogui_locateOnScreen,
    pyautogui_position, safe_screen_height, pyautogui_size_height, py_floordiv,
    pyautogui_Box, try_except, bind, ret, raise, emit in *.

Ltac split_match_lazy H :=
  repeat match type of H with
         | context [match ?x with _ => _ end] =>
             lazymatch x with
             | context [match _ with _ => _ end] => fail
             | _ => let E := fresh "E" in
                    destruct x eqn:E; cbv beta iota zeta delta [negb] in H;
                    try discriminate H
             end
         end.

Lemma setup_ok env cfg h lc h0 :
  setup env cfg h = Ok lc h0 ->
  row_height cfg <> 0 /\
  list_start_x lc = left (resolved_anchor env cfg) + list_offset_x cfg /\
  list_start_y lc = top (resolved_anchor env cfg) + list_offset_y cfg /\
  resolved_origin lc = resolved_placement_origin env cfg /\
  visible_rows lc =
    Z.max 1 ((resolved_screen_height env cfg - list_start_y lc) / row_height cfg) /\
  exists evs, h0 = h ++ evs /\
    count is_scroll evs = 0 /\ count is_click evs = 0 /\ count is_print evs = 0 /\
    count is_move evs = 0 /\ count is_sample evs = 0 /\ count is_sleep evs = 0 /\
    (dry_run cfg = true -> count is_locate evs = 0).
Proof.
  intros H. unfold resolved_screen_height, resolved_anchor, resolved_placement_origin.
  unfold_setup. cbv beta iota zeta in H.
  split_match_lazy H; inversion H; subst; clear H;
    cbn [list_start_x list_start_y resolved_origin visible_rows left top];
    rewrite <- ?app_assoc; cbn [app];
    (split; [apply Z.eqb_neq; assumption|]);
    repeat (split; [reflexivity|]);
    eexists; (split; [reflexivity|]); repeat split; auto; discriminate.
Qed.

Lemma setup_visible_rows env cfg h lc h0 :
  setup env cfg h = Ok lc h0 -> 1 <= visible_rows lc.
Proof.
  intros H. apply setup_ok in H. destruct H as (_ & _ & _ & _ & Hv & _).
  rewrite Hv. lia.
Qed.

(** ** Facts about the loop *)

Definition state_of (o : outcome) : loop_state :=
  match o with
  | Returned _ st => st
  | Running st => st
  end.

(** At the head of every iteration the row asked for is at most one row
    below the visible window. *)
Definition head_inv (lc : locals) (st : loop_state) : Prop :=
  0 <= index st - scroll_rows_consumed st <= visible_rows lc.

Section WhileFacts.
Variable env : Env.
Variable cfg : PlacementConfig.
Variable lc : locals.

Lemma while_loop_unfold fuel st h :
  while_loop env cfg lc fuel st h =
  if negb (loop_condition cfg st) then Ok (Returned PyNone st) h
  else match fuel with
       | O => Ok (Running st) h
       | S fuel' =>
           match loop_body env cfg lc st h with
           | Ok st' h' => while_loop env cfg lc fuel' st' h'
           | Raise e h' => Raise e h'
           end
       end.
Proof. destruct fuel; simpl; destruct (loop_condition cfg st); reflexivity. Qed.

(** Whatever one iteration preserves holds whenever the loop is observed. *)
Lemma while_loop_preserves (P : loop_state -> trace -> Prop) :
  (forall st h st' h',
      P st h -> loop_condition cfg st = true ->
      loop_body env cfg lc st h = Ok st' h' -> P st' h') ->
  forall fuel st h o h',
    P st h -> while_loop env cfg lc fuel st h = Ok o h' -> P (state_of o) h'.
Proof.
  intros Hstep. induction fuel as [|fuel IH]; intros st h o h' HP H;
    rewrite while_loop_unfold in H;
    destruct (loop_condition cfg st) eqn:Hc; simpl in H;
    try (inversion H; subst; exact HP).
  destruct (loop_body env cfg lc st h) as [st1 h1|] eqn:Hb; [|discriminate].
  eapply IH; [|exact H]. eapply Hstep; eauto.
Qed.

(** A run that is still going after [n] iterations goes on from there. *)
Lemma while_loop_running_plus n k st h st1 h1 :
  while_loop env cfg lc n st h = Ok (Running st1) h1 ->
  while_loop env cfg lc (n + k) st h = while_loop env cfg lc k st1 h1.
Proof.
  revert st h. induction n as [|n IH]; intros st h H;
    rewrite while_loop_unfold in H.
  - destruct (loop_condition cfg st); simpl in H; inversion H; subst. reflexivity.
  - destruct (loop_condition cfg st) eqn:Hc; simpl in H; [|discriminate].
    simpl plus. rewrite (while_loop_unfold (S (n + k))). rewrite Hc; simpl.
    destruct (loop_body env cfg lc st h) as [st2 h2|]; [|discriminate].
    now apply IH.
Qed.

(** A run that returned within [n] iterations returns the same with more. *)
Lemma while_loop_returned_plus n k st h v st1 h1 :
  while_loop env cfg lc n st h = Ok (Returned v st1) h1 ->
  while_loop env cfg lc (n + k) st h = Ok (Returned v st1) h1.
Proof.
  revert st h. induction n as [|n IH]; intros st h H;
    rewrite while_loop_unfold in H; rewrite while_loop_unfold.
  - destruct (loop_condition cfg st); simpl in *; [discriminate|assumption].
  - destruct (loop_condition cfg st) eqn:Hc; simpl in *; [|assumption].
    destruct (loop_body env cfg lc st h) as [st2 h2|]; [|discriminate].
    now apply IH.
Qed.

Hypothesis visible_rows_pos : 1 <= visible_rows lc.

(** The scroll step brings the row into the window and moves the offset by
    at most one row. *)
Lemma scroll_into_view_in_range st h c riv h1 :
  head_inv lc st ->
  scroll_into_view cfg lc st h = Ok (c, riv) h1 ->
  riv = index st - c /\ 0 <= riv < visible_rows lc /\
  (c = scroll_rows_consumed st \/
   (c = scroll_rows_consumed st + 1 /\
    index st - scroll_rows_consumed st = visible_rows lc)).
Proof.
  unfold head_inv. intros Hi H. rewrite scroll_into_view_eq in H. cbv zeta in H.
  destruct (index st - scroll_rows_consumed st >=? visible_rows lc) eqn:E;
    inversion H; subst; clear H.
  - apply Z.geb_le in E. lia.
  - rewrite Z.geb_leb in E. apply Z.leb_gt in E. lia.
Qed.

Lemma loop_body_head_inv st h st' h' :
  head_inv lc st ->
  loop_body env cfg lc st h = Ok st' h' ->
  head_inv lc st' /\ scroll_rows_consumed st <= scroll_rows_consumed st'.
Proof.
  intros Hi H. apply loop_body_ok in H.
  destruct H as (c & riv & evs & Hs & _ & Hidx & Hc & _).
  destruct (scroll_into_view_in_range _ _ _ _ _ Hi Hs) as (Hr & Hb & Hcs).
  unfold head_inv in *. lia.
Qed.

Lemma while_loop_head_inv fuel st h o h' :
  head_inv lc st ->
  while_loop env cfg lc fuel st h = Ok o h' ->
  head_inv lc (state_of o) /\
  scroll_rows_consumed st <= scroll_rows_consumed (state_of o).
Proof.
  intros Hi H.
  apply (while_loop_preserves
           (fun s _ => head_inv lc s /\
                       scroll_rows_consumed st <= scroll_rows_consumed s))
    in H; [exact H| |split; [exact Hi|lia]].
  intros s hs s' hs' [Hs Hm] _ Hb.
  destruct (loop_body_head_inv _ _ _ _ Hs Hb). split; [assumption|lia].
Qed.
End WhileFacts.

Lemma initial_head_inv lc : 1 <= visible_rows lc -> head_inv lc initial_state.
Proof. unfold head_inv; simpl. lia. Qed.

(** ** Scrolling along a run *)

(** A scroll command of one logical row at the list position. *)
Definition one_row_scroll (cfg : PlacementConfig) (lc : locals) (e : event) : Prop :=
  match e with
  | EScroll amount x y =>
      amount = - scroll_clicks_per_row cfg /\ x = list_start_x lc /\ y = list_start_y lc
  | _ => True
  end.

(** What holds of the loop state and the trace at the head of an iteration:
    the index is non-negative, the window has been scrolled just far enough to
    show the previous row, every scroll so far moved one row, and (outside a
    dry run) there was one scroll command per row scrolled. *)
Definition scroll_inv (cfg : PlacementConfig) (lc : locals)
    (st : loop_state) (h : trace) : Prop :=
  0 <= index st /\
  scroll_rows_consumed st = Z.max 0 (index st - visible_rows lc) /\
  Forall (one_row_scroll cfg lc) h /\
  (dry_run cfg = false -> count is_scroll h = scroll_rows_consumed st) /\
  (dry_run cfg = true -> count is_scroll h = 0).

Lemma scroll_inv_head_inv cfg lc st h :
  1 <= visible_rows lc -> scroll_inv cfg lc st h -> head_inv lc st.
Proof. unfold scroll_inv, head_inv. intros Hv (Hi & Hc & _). lia. Qed.

Lemma no_scroll_one_row cfg lc evs :
  count is_scroll evs = 0 -> Forall (one_row_scroll cfg lc) evs.
Proof.
  intros H. apply count_zero_Forall in H.
  eapply Forall_impl; [|exact H].
  intros [] He; simpl in *; try exact I; discriminate.
Qed.

Section ScrollFacts.
Variable env : Env.
Variable cfg : PlacementConfig.
Variable lc : locals.
Hypothesis visible_rows_pos : 1 <= visible_rows lc.

Lemma scroll_events_one_row st :
  head_inv lc st -> Forall (one_row_scroll cfg lc) (scroll_events cfg lc st).
Proof.
  unfold head_inv, scroll_events. intros Hi. cbv zeta.
  destruct (index st - scroll_rows_consumed st >=? visible_rows lc) eqn:E;
    [|constructor].
  apply Z.geb_le in E. destruct (dry_run cfg); [constructor|].
  repeat constructor; simpl; try exact I.
  replace (index st - scroll_rows_consumed st - visible_rows lc + 1) with 1 by lia.
  lia.
Qed.

Lemma loop_body_scroll_inv st h st' h' :
  scroll_inv cfg lc st h ->
  loop_body env cfg lc st h = Ok st' h' ->
  scroll_inv cfg lc st' h'.
Proof.
  intros Hinv Hb.
  pose proof (scroll_inv_head_inv _ _ _ _ visible_rows_pos Hinv) as Hhead.
  destruct Hinv as (Hi & Hc & Hf & Hn & Hd).
  apply loop_body_ok in Hb.
  destruct Hb as (c & riv & evs & Hs & Hh & Hidx & Hcons & Hnos & _).
  destruct (scroll_into_view_in_range cfg lc visible_rows_pos _ _ _ _ _ Hhead Hs)
    as (Hr & Hb & Hcs).
  pose proof (scroll_events_scrolls cfg lc st) as Hcnt.
  unfold head_inv in Hhead.
  assert (Hbranch :
            (index st - scroll_rows_consumed st >=? visible_rows lc) =
            (c =? scroll_rows_consumed st + 1)).
  { destruct (index st - scroll_rows_consumed st >=? visible_rows lc) eqn:E.
    - apply Z.geb_le in E. symmetry. apply Z.eqb_eq. lia.
    - rewrite Z.geb_leb in E. apply Z.leb_gt in E. symmetry. apply Z.eqb_neq. lia. }
  rewrite Hbranch in Hcnt.
  subst h'. unfold scroll_inv. rewrite !count_app, Hnos, Hcnt.
  repeat split.
  - lia.
  - lia.
  - rewrite !Forall_app. repeat split;
      [assumption | now apply scroll_events_one_row | now apply no_scroll_one_row].
  - intros Hdry. rewrite Hdry, (Hn Hdry). simpl.
    destruct (c =? scroll_rows_consumed st + 1) eqn:E;
      [apply Z.eqb_eq in E | apply Z.eqb_neq in E]; simpl; lia.
  - intros Hdry. rewrite Hdry, (Hd Hdry), andb_false_r. lia.
Qed.

Lemma while_loop_scroll_inv fuel st h o h' :
  scroll_inv cfg lc st h ->
  while_loop env cfg lc fuel st h = Ok o h' ->
  scroll_inv cfg lc (state_of o) h'.
Proof.
  intros Hi H.
  apply (while_loop_preserves env cfg lc (scroll_inv cfg lc)) in H; [exact H| |exact Hi].
  intros s hs s' hs' Hs _ Hb. eapply loop_body_scroll_inv; eauto.
Qed.

(** The index counts the iterations. *)
Lemma while_loop_running_index fuel st h st' h' :
  while_loop env cfg lc fuel st h = Ok (Running st') h' ->
  index st' = index st + Z.of_nat fuel.
Proof.
  revert st h. induction fuel as [|fuel IH]; intros st h H;
    rewrite while_loop_unfold in H;
    destruct (loop_condition cfg st); simpl in H; try discriminate.
  - inversion H; subst. simpl. lia.
  - destruct (loop_body env cfg lc st h) as [s1 h1|] eqn:Hb; [|discriminate].
    apply IH in H. apply loop_body_ok in Hb.
    destruct Hb as (c & riv & evs & _ & _ & Hidx & _). lia.
Qed.
End ScrollFacts.

Lemma setup_scroll_inv env cfg lc h0 :
  setup env cfg [] = Ok lc h0 -> scroll_inv cfg lc initial_state h0.
Proof.
  intros H. pose proof (setup_visible_rows _ _ _ _ _ H) as Hv.
  apply setup_ok in H.
  destruct H as (_ & _ & _ & _ & _ & evs & Hh & Hs & _). simpl in Hh. subst h0.
  unfold scroll_inv; simpl. repeat split; try lia; try (intros _; assumption).
  now apply no_scroll_one_row.
Qed.

(** ** Example configurations and environments *)

(** The defaults with the fields a command line usually sets. *)
Definition configure (hgt : option Z) (lim : option Z) (origin : option point)
    (cat : option rgb) (require_item dry : bool) : PlacementConfig :=
  let d := default_config "anchor.png" in
  {| anchor_template := anchor_template d;
     row_height := row_height d;
     list_offset_x := list_offset_x d;
     list_offset_y := list_offset_y d;
     screen_height := hgt;
     spacing_pixels := spacing_pixels d;
     per_row := per_row d;
     click_delay := click_delay d;
     place_delay := place_delay d;
     scroll_clicks_per_row := scroll_clicks_per_row d;
     scroll_delay := scroll_delay d;
     limit := lim;
     confidence := confidence d;
     placement_origin := origin;
     category_color := cat;
     category_color_tolerance := category_color_tolerance d;
     category_icon_offset_x := category_icon_offset_x d;
     item_color := item_color d;
     item_color_tolerance := item_color_tolerance d;
     item_color_offset_x := item_color_offset_x d;
     item_color_offset_y := item_color_offset_y d;
     require_item_color := require_item;
     dry_run := dry |}.

(** A screen whose anchor sits at the top, with every sampled pixel
    answering [answer]. *)
Definition uniform_screen (answer : option bool) : Env :=
  {| template_exists := true;
     locateOnScreen := Some (mkBox 100 0 200 20);
     position := (300, 200);
     size_height := Some 1080;
     pixelMatchesColor := fun _ _ _ _ _ => answer |}.

(** What the set-up of a live run adds to the trace on such a screen. *)
Definition live_setup_trace : trace :=
  [EExists "anchor.png" true;
   ELocate "anchor.png" (9 # 10) (Some (mkBox 100 0 200 20));
   ESetFailsafe].

(** A live run on a screen 100 pixels high, where two rows are visible,
    placing from (300, 200) on. *)
Definition small_window_config : PlacementConfig :=
  configure (Some 100) None (Some (300, 200)) None true false.

Definition small_window_locals : locals :=
  {| list_start_x := 110; list_start_y := 40;
     resolved_origin := (300, 200); visible_rows := 2 |}.

(** Its trace after [n] iterations, every row showing the item colour. *)
Definition small_window_trace (n : nat) : trace :=
  match while_loop (uniform_screen (Some true)) small_window_config
          small_window_locals n initial_state live_setup_trace with
  | Ok _ h => h
  | Raise _ h => h
  end.

(** * The claims *)

(** C1.  At the head of every iteration of a run of [place_objects], the
    scroll step succeeds and leaves [row_in_view] equal to the index minus the
    updated [scroll_rows_consumed], with [0 <= row_in_view < visible_rows],
    where [visible_rows = max(1, (screen_height - list_start_y) // row_height)]
    is at least 1; and [scroll_rows_consumed] never decreases, neither in the
    scroll step nor from an earlier point of the run to a later one. *)
Theorem row_in_view_invariant env cfg lc h0 n o h :
  setup env cfg [] = Ok lc h0 ->
  while_loop env cfg lc n initial_state h0 = Ok o h ->
  visible_rows lc =
    Z.max 1 ((resolved_screen_height env cfg - list_start_y lc) / row_height cfg) /\
  1 <= visible_rows lc /\
  (exists c riv h1,
      scroll_into_view cfg lc (state_of o) h = Ok (c, riv) h1 /\
      riv = index (state_of o) - c /\
      0 <= riv < visible_rows lc /\
      scroll_rows_consumed (state_of o) <= c) /\
  (forall m o' h',
      (m <= n)%nat ->
      while_loop env cfg lc m initial_state h0 = Ok o' h' ->
      0 <= scroll_rows_consumed (state_of o') <= scroll_rows_consumed (state_of o)).
Proof.
  intros Hsetup Hrun.
  pose proof (setup_visible_rows _ _ _ _ _ Hsetup) as Hv.
  pose proof (initial_head_inv lc Hv) as Hinit.
  split; [apply setup_ok in Hsetup; tauto|]. split; [exact Hv|]. split.
  - destruct (while_loop_head_inv env cfg lc Hv _ _ _ _ _ Hinit Hrun) as [Hhead _].
    pose proof (scroll_into_view_eq cfg lc (state_of o) h) as Heq. cbv zeta in Heq.
    destruct (index (state_of o) - scroll_rows_consumed (state_of o)
              >=? visible_rows lc);
      (do 3 eexists; split; [exact Heq|]);
      destruct (scroll_into_view_in_range cfg lc Hv _ _ _ _ _ Hhead Heq)
        as (Hr & Hb & Hc); lia.
  - intros m o' h' Hle Hm.
    destruct (while_loop_head_inv env cfg lc Hv _ _ _ _ _ Hinit Hm) as [Hhead' Hmono'].
    simpl in Hmono'. split; [exact Hmono'|].
    replace n with (m + (n - m))%nat in Hrun by lia.
    destruct o' as [v st'|st']; simpl in *.
    + rewrite (while_loop_returned_plus env cfg lc _ _ _ _ _ _ _ Hm) in Hrun.
      inversion Hrun; subst. simpl. lia.
    + rewrite (while_loop_running_plus env cfg lc _ _ _ _ _ _ Hm) in Hrun.
      now destruct (while_loop_head_inv env cfg lc Hv _ _ _ _ _ Hhead' Hrun).
Qed.

(** The small-window run, observed at the head of its fifth iteration. *)
Lemma row_in_view_invariant_witness :
  exists c riv h1,
    scroll_into_view small_window_config small_window_locals
      {| scroll_rows_consumed := 2; placed := 4; index := 4 |}
      (small_window_trace 4)
    = Ok (c, riv) h1 /\
    riv = 4 - c /\ 0 <= riv < 2 /\ 2 <= c.
Proof.
  refine (proj1 (proj2 (proj2
    (row_in_view_invariant (uniform_screen (Some true)) small_window_config
       small_window_locals live_setup_trace 4
       (Running {| scroll_rows_consumed := 2; placed := 4; index := 4 |})
       (small_window_trace 4) eq_refl _)))).
  vm_compute. reflexivity.
Defined.

(** C10.  Along every run of [place_objects] the index counts the
    iterations, and whenever the scroll branch is taken [rows_to_scroll] is 1:
    the scroll step issues (outside a dry run) the single command
    [scroll(-scroll_clicks_per_row)] at the list position and adds exactly 1
    to [scroll_rows_consumed].  Hence every scroll command in the trace of a
    run has that magnitude, and there are as many of them as rows consumed. *)
Theorem scroll_moves_one_row env cfg lc h0 n st h :
  setup env cfg [] = Ok lc h0 ->
  while_loop env cfg lc n initial_state h0 = Ok (Running st) h ->
  index st = Z.of_nat n /\
  (index st - scroll_rows_consumed st >= visible_rows lc ->
   index st - scroll_rows_consumed st - visible_rows lc + 1 = 1 /\
   scroll_into_view cfg lc st h =
     Ok (scroll_rows_consumed st + 1, index st - (scroll_rows_consumed st + 1))
        (h ++ if dry_run cfg then []
              else [EScroll (- scroll_clicks_per_row cfg)
                      (list_start_x lc) (list_start_y lc);
                    ESleep (scroll_delay cfg)])) /\
  Forall (one_row_scroll cfg lc) h /\
  (dry_run cfg = false -> count is_scroll h = scroll_rows_consumed st).
Proof.
  intros Hsetup Hrun.
  pose proof (setup_visible_rows _ _ _ _ _ Hsetup) as Hv.
  pose proof (setup_scroll_inv _ _ _ _ Hsetup) as Hinit.
  pose proof (while_loop_scroll_inv env cfg lc Hv _ _ _ _ _ Hinit Hrun) as Hinv.
  simpl in Hinv.
  pose proof (scroll_inv_head_inv _ _ _ _ Hv Hinv) as Hhead.
  destruct Hinv as (Hi & Hc & Hf & Hcnt & _).
  split; [apply while_loop_running_index in Hrun; simpl in Hrun; lia|].
  split; [|split; assumption].
  intros Hge. unfold head_inv in Hhead.
  assert (Hone : index st - scroll_rows_consumed st - visible_rows lc + 1 = 1) by lia.
  split; [exact Hone|].
  rewrite scroll_into_view_eq. unfold scroll_events. cbv zeta.
  destruct (index st - scroll_rows_consumed st >=? visible_rows lc) eqn:E.
  - rewrite Hone. replace (- scroll_clicks_per_row cfg * 1)
      with (- scroll_clicks_per_row cfg) by lia. reflexivity.
  - rewrite Z.geb_leb in E. apply Z.leb_gt in E. lia.
Qed.

(** The small-window run at the head of its third iteration: the row asked
    for is one below the two visible rows. *)
Lemma scroll_moves_one_row_witness :
  scroll_into_view small_window_config small_window_locals
    {| scroll_rows_consumed := 0; placed := 2; index := 2 |}
    (small_window_trace 2)
  = Ok (1, 1) (small_window_trace 2 ++ [EScroll (-3) 110 40; ESleep (15 # 100)]).
Proof.
  refine (proj2 (proj1 (proj2
    (scroll_moves_one_row (uniform_screen (Some true)) small_window_config
       small_window_locals live_setup_trace 2
       {| scroll_rows_consumed := 0; placed := 2; index := 2 |}
       (small_window_trace 2) eq_refl _)) _)).
  - vm_compute. reflexivity.
  - simpl. lia.
Defined.

(** C6.  With [row_height = 26], the list starting at [y = 40] and a screen
    1080 pixels high, [visible_rows] is [max(1, (1080 - 40) // 26) = 40].  A
    run that gets to its 41st iteration is then at index 40 with nothing
    scrolled so far; [rows_to_scroll] is 1, and the scroll step leaves
    [scroll_rows_consumed = 1] and [row_in_view = 39].  In a live run it
    issues exactly one scroll command, of [-scroll_clicks_per_row * 1] at the
    list position, and the iteration issues no other; a dry run does the same
    bookkeeping and issues none. *)
Theorem scenario_scroll_at_row_40 env cfg lc h0 st h :
  row_height cfg = 26 ->
  resolved_screen_height env cfg = 1080 ->
  setup env cfg [] = Ok lc h0 ->
  list_start_y lc = 40 ->
  while_loop env cfg lc 40 initial_state h0 = Ok (Running st) h ->
  visible_rows lc = Z.max 1 ((1080 - 40) / 26) /\
  visible_rows lc = 40 /\
  index st = 40 /\ scroll_rows_consumed st = 0 /\ count is_scroll h = 0 /\
  index st - scroll_rows_consumed st - visible_rows lc + 1 = 1 /\
  scroll_into_view cfg lc st h =
    Ok (1, 39)
       (h ++ if dry_run cfg then []
             else [EScroll (- scroll_clicks_per_row cfg * 1)
                     (list_start_x lc) (list_start_y lc);
                   ESleep (scroll_delay cfg)]) /\
  (forall st' h',
      loop_body env cfg lc st h = Ok st' h' ->
      scroll_rows_consumed st' = 1 /\
      (dry_run cfg = false -> count is_scroll h' = 1)).
Proof.
  intros Hrh Hsh Hsetup Hy Hrun.
  pose proof (setup_visible_rows _ _ _ _ _ Hsetup) as Hv.
  pose proof (setup_scroll_inv _ _ _ _ Hsetup) as Hinit.
  pose proof (while_loop_scroll_inv env cfg lc Hv _ _ _ _ _ Hinit Hrun) as Hinv.
  simpl in Hinv. destruct Hinv as (Hi & Hc & Hf & Hlive & Hdry).
  apply while_loop_running_index in Hrun. simpl in Hrun.
  apply setup_ok in Hsetup. destruct Hsetup as (_ & _ & _ & _ & Hvis & _).
  rewrite Hsh, Hy, Hrh in Hvis.
  assert (Hvis40 : visible_rows lc = 40) by (rewrite Hvis; reflexivity).
  assert (Hcons : scroll_rows_consumed st = 0) by lia.
  assert (Hnone : count is_scroll h = 0).
  { destruct (dry_run cfg); [now apply Hdry|]. rewrite Hlive by reflexivity. lia. }
  assert (Hscroll :
    scroll_into_view cfg lc st h =
      Ok (1, 39)
         (h ++ if dry_run cfg then []
               else [EScroll (- scroll_clicks_per_row cfg * 1)
                       (list_start_x lc) (list_start_y lc);
                     ESleep (scroll_delay cfg)])).
  { rewrite scroll_into_view_eq. unfold scroll_events.
    rewrite Hrun, Hcons, Hvis40. reflexivity. }
  do 7 (split; [first [assumption | lia]|]).
  intros st' h' H. apply loop_body_ok in H.
  destruct H as (c & riv & evs & Hs & Hh & _ & Hc' & Hn & _).
  split.
  - rewrite Hscroll in Hs. inversion Hs; subst. lia.
  - intros Hlive'. subst h'. rewrite !count_app, Hn, scroll_events_scrolls.
    rewrite Hrun, Hcons, Hvis40, Hlive', Hnone. reflexivity.
Qed.

(** A live run with the default geometry on a 1080-pixel screen where every
    row shows the item colour: its set-up, and where it stands after 40
    iterations. *)
Definition live_1080_config : PlacementConfig :=
  configure (Some 1080) None (Some (300, 200)) None true false.

Definition live_1080_locals : locals :=
  {| list_start_x := 110; list_start_y := 40;
     resolved_origin := (300, 200); visible_rows := 40 |}.

Definition live_1080_setup_trace : trace := live_setup_trace.

Definition live_1080_trace_40 : trace :=
  Eval vm_compute in
    match while_loop (uniform_screen (Some true)) live_1080_config live_1080_locals
            40 initial_state live_1080_setup_trace with
    | Ok _ h => h
    | Raise _ h => h
    end.

Lemma scenario_scroll_at_row_40_witness :
  visible_rows live_1080_locals = 40 /\
  scroll_into_view live_1080_config live_1080_locals
    {| scroll_rows_consumed := 0; placed := 40; index := 40 |} live_1080_trace_40
  = Ok (1, 39) (live_1080_trace_40 ++ [EScroll (-3) 110 40; ESleep (15 # 100)]).
Proof.
  pose proof (scenario_scroll_at_row_40 (uniform_screen (Some true)) live_1080_config
                live_1080_locals live_1080_setup_trace
                {| scroll_rows_consumed := 0; placed := 40; index := 40 |}
                live_1080_trace_40
                eq_refl eq_refl eq_refl eq_refl
                ltac:(vm_compute; reflexivity)) as H.
  split; [apply H|apply H].
Defined.

(** C2.  With [per_row >= 1] and [spacing_pixels > 0], placement number
    [n >= 0] goes to
    [(origin.x + (n mod per_row) * spacing, origin.y + (n div per_row) * spacing)],
    its column [n mod per_row] lies in [[0, per_row)], and two different
    placement numbers never get the same position.  With [per_row = 15],
    [spacing_pixels = 120] and origin [(0, 0)], placement 16 goes to
    [(120, 120)]. *)
Theorem placement_planner cfg lc :
  1 <= per_row cfg ->
  0 < spacing_pixels cfg ->
  (forall n h, 0 <= n ->
     world_pos cfg lc n h =
       Ok (fst (resolved_origin lc) + (n mod per_row cfg) * spacing_pixels cfg,
           snd (resolved_origin lc) + (n / per_row cfg) * spacing_pixels cfg) h /\
     0 <= n mod per_row cfg < per_row cfg) /\
  (forall n m h h' p q hp hq,
     0 <= n -> 0 <= m -> n <> m ->
     world_pos cfg lc n h = Ok p hp ->
     world_pos cfg lc m h' = Ok q hq ->
     p <> q) /\
  (per_row cfg = 15 -> spacing_pixels cfg = 120 -> resolved_origin lc = (0, 0) ->
   forall h, world_pos cfg lc 16 h = Ok (120, 120) h).
Proof.
  intros Hp Hs.
  assert (Heq : forall n h,
             world_pos cfg lc n h =
             Ok (fst (resolved_origin lc) + (n mod per_row cfg) * spacing_pixels cfg,
                 snd (resolved_origin lc) + (n / per_row cfg) * spacing_pixels cfg) h).
  { intros n h. unfold world_pos, py_mod, py_floordiv, bind, ret.
    destruct (per_row cfg =? 0) eqn:E; [apply Z.eqb_eq in E; lia|reflexivity]. }
  split; [|split].
  - intros n h Hn. split; [apply Heq|]. apply Z.mod_pos_bound. lia.
  - intros n m h h' p q hp hq Hn Hm Hne Hwp Hwq.
    rewrite Heq in Hwp, Hwq. inversion Hwp; inversion Hwq; subst.
    intros Hpq. apply Hne. inversion Hpq as [[Hx Hy]].
    assert (Hcol : n mod per_row cfg = m mod per_row cfg) by nia.
    assert (Hrow : n / per_row cfg = m / per_row cfg) by nia.
    rewrite (Z.div_mod n (per_row cfg)), (Z.div_mod m (per_row cfg)) by lia.
    now rewrite Hcol, Hrow.
  - intros H15 H120 Ho h. rewrite Heq, H15, H120, Ho. reflexivity.
Qed.

(** Scenario A: the default grid laid out from the origin (0, 0). *)
Lemma placement_planner_witness :
  world_pos live_1080_config
    {| list_start_x := 110; list_start_y := 40;
       resolved_origin := (0, 0); visible_rows := 40 |} 16 []
  = Ok (120, 120) [].
Proof.
  refine (proj2 (proj2 (placement_planner live_1080_config
                          {| list_start_x := 110; list_start_y := 40;
                             resolved_origin := (0, 0); visible_rows := 40 |} _ _))
            eq_refl eq_refl eq_refl []); simpl; lia.
Defined.

(** ** The classifier functions never raise *)

Lemma is_category_row_eq env list_x list_y cfg h :
  is_category_row env list_x list_y cfg h =
  match category_color cfg with
  | None => Ok false h
  | Some color =>
      let answer := pixelMatchesColor env h (list_x + category_icon_offset_x cfg)
                      list_y color (category_color_tolerance cfg) in
      Ok (match answer with Some b => b | None => false end)
         (h ++ [ESample (list_x + category_icon_offset_x cfg) list_y color
                  (category_color_tolerance cfg) answer])
  end.
Proof.
  unfold is_category_row, try_except, pyautogui_pixelMatchesColor, ret.
  destruct (category_color cfg); [|reflexivity]. cbv zeta.
  now destruct (pixelMatchesColor _ _ _ _ _ _).
Qed.

Lemma row_has_item_color_eq env list_x list_y cfg h :
  row_has_item_color env list_x list_y cfg h =
  match item_color cfg with
  | None => Ok true h
  | Some color =>
      if negb (require_item_color cfg) then Ok true h
      else
        let answer := pixelMatchesColor env h (list_x + item_color_offset_x cfg)
                        (list_y + item_color_offset_y cfg) color
                        (item_color_tolerance cfg) in
        Ok (match answer with Some b => b | None => false end)
           (h ++ [ESample (list_x + item_color_offset_x cfg)
                    (list_y + item_color_offset_y cfg) color
                    (item_color_tolerance cfg) answer])
  end.
Proof.
  unfold row_has_item_color, try_except, pyautogui_pixelMatchesColor, ret.
  destruct (item_color cfg); [|reflexivity].
  destruct (require_item_color cfg); [|reflexivity]. cbv zeta. simpl.
  now destruct (pixelMatchesColor _ _ _ _ _ _).
Qed.

(** ** Classifying a row *)

(** What an iteration makes of its row. *)
Inductive row_class :=
| Category
| MissingItemSignal
| Valid.

(** Lines 169 and 173: the two tests an iteration makes on the row at
    [list_pos], in the order the loop makes them.  A dry run makes neither. *)
Definition classify (env : Env) (cfg : PlacementConfig) (list_pos : point)
  : M row_class :=
  is_cat <- (if negb (dry_run cfg)
             then is_category_row env (fst list_pos) (snd list_pos) cfg
             else ret false) ;;
  if is_cat then ret Category
  else
    no_item <- (if negb (dry_run cfg)
                then b <- row_has_item_color env (fst list_pos) (snd list_pos) cfg ;;
                     ret (negb b)
                else ret false) ;;
    if no_item then ret MissingItemSignal else ret Valid.

(** The diagnostic of line 174. *)
Definition skip_message (index : Z) (list_pos : point) : string :=
  ("Skipping row " ++ str_int index
   ++ ": item color not detected at " ++ str_pair list_pos ++ ".")%string.

(** The line a dry run prints for a row (line 186). *)
Definition would_click (list_pos wpos : point) : string :=
  ("Would click list entry at " ++ str_pair list_pos
   ++ " and place at " ++ str_pair wpos)%string.

(** Lines 185-194: what placing a row adds to the trace. *)
Definition placement_events (cfg : PlacementConfig) (list_pos wpos : point) : trace :=
  if dry_run cfg then [EPrint (would_click list_pos wpos)]
  else [EMoveTo (fst list_pos) (snd list_pos); EClick; ESleep (click_delay cfg);
        EMoveTo (fst wpos) (snd wpos); EClick; ESleep (place_delay cfg)].

(** An iteration is: scroll, classify, then skip or place by the class. *)
Lemma loop_body_by_class env cfg lc st h c riv hs :
  scroll_into_view cfg lc st h = Ok (c, riv) hs ->
  loop_body env cfg lc st h =
  match classify env cfg
          (list_start_x lc, list_start_y lc + riv * row_height cfg) hs with
  | Ok Category hc =>
      Ok {| scroll_rows_consumed := c; placed := placed st; index := index st + 1 |} hc
  | Ok MissingItemSignal hc =>
      Ok {| scroll_rows_consumed := c; placed := placed st; index := index st + 1 |}
         (hc ++ [EPrint (skip_message (index st)
                           (list_start_x lc,
                            list_start_y lc + riv * row_height cfg))])
  | Ok Valid hc =>
      match world_pos cfg lc (placed st) hc with
      | Ok wpos hw =>
          Ok {| scroll_rows_consumed := c; placed := placed st + 1;
                index := index st + 1 |}
             (hw ++ placement_events cfg
                      (list_start_x lc, list_start_y lc + riv * row_height cfg) wpos)
      | Raise e t => Raise e t
      end
  | Raise e t => Raise e t
  end.
Proof.
  intros Hs. unfold loop_body. unfold bind at 1. rewrite Hs.
  unfold classify, placement_events, skip_message, would_click.
  destruct (dry_run cfg);
    cbv beta iota zeta delta [bind ret fst snd negb].
  - destruct (world_pos cfg lc (placed st) hs) as [wpos hw|e t]; [|reflexivity].
    unfold print, emit. reflexivity.
  - destruct (is_category_row env (list_start_x lc)
                (list_start_y lc + riv * row_height cfg) cfg hs) as [[|] hc|e t];
      [reflexivity| |reflexivity].
    destruct (row_has_item_color env (list_start_x lc)
                (list_start_y lc + riv * row_height cfg) cfg hc) as [[|] hi|e t];
      [| |reflexivity].
    + destruct (world_pos cfg lc (placed st) hi) as [wpos hw|e t]; [|reflexivity].
      unfold pyautogui_moveTo, pyautogui_click, time_sleep, emit.
      cbv beta iota zeta delta [fst snd]. rewrite <- !app_assoc. reflexivity.
    + unfold print, emit. reflexivity.
Qed.

(** The tests never raise: every row gets a class. *)
Lemma classify_total env cfg list_pos h :
  exists cls hc, classify env cfg list_pos h = Ok cls hc.
Proof.
  unfold classify. destruct (dry_run cfg);
    cbv beta iota zeta delta [bind ret negb]; [eauto|].
  rewrite is_category_row_eq. destruct (category_color cfg) as [color|]; cbv zeta.
  - destruct (pixelMatchesColor env h _ _ color _) as [[|]|]; [eauto| |];
      rewrite row_has_item_color_eq;
      (destruct (item_color cfg) as [ic|]; [|eauto]);
      (destruct (require_item_color cfg); cbn [negb]; [|eauto]);
      cbv zeta;
      match goal with
      | |- context [pixelMatchesColor env ?t ?x ?y ic ?tol] =>
          destruct (pixelMatchesColor env t x y ic tol) as [[|]|]; eauto
      end.
  - rewrite row_has_item_color_eq.
    destruct (item_color cfg) as [ic|]; [|eauto].
    destruct (require_item_color cfg); cbn [negb]; [|eauto].
    cbv zeta.
    destruct (pixelMatchesColor env h _ _ ic _) as [[|]|]; eauto.
Qed.

(** A dry run takes every row for valid, without looking. *)
Lemma classify_dry env cfg list_pos h :
  dry_run cfg = true -> classify env cfg list_pos h = Ok Valid h.
Proof. intros Hdry. unfold classify. rewrite Hdry. reflexivity. Qed.

(** A matching category sample settles the class at once. *)
Lemma classify_category env cfg list_pos h color :
  dry_run cfg = false ->
  category_color cfg = Some color ->
  pixelMatchesColor env h (fst list_pos + category_icon_offset_x cfg) (snd list_pos)
    color (category_color_tolerance cfg) = Some true ->
  classify env cfg list_pos h =
  Ok Category
     (h ++ [ESample (fst list_pos + category_icon_offset_x cfg) (snd list_pos) color
              (category_color_tolerance cfg) (Some true)]).
Proof.
  intros Hlive Hcat Hpix. unfold classify. rewrite Hlive.
  cbv beta iota zeta delta [bind ret negb].
  rewrite is_category_row_eq, Hcat. cbv zeta. rewrite Hpix. reflexivity.
Qed.

(** Past the category test, the item-colour test decides. *)
Lemma classify_by_item_color env cfg list_pos h hc :
  dry_run cfg = false ->
  is_category_row env (fst list_pos) (snd list_pos) cfg h = Ok false hc ->
  classify env cfg list_pos h =
  match row_has_item_color env (fst list_pos) (snd list_pos) cfg hc with
  | Ok true hi => Ok Valid hi
  | Ok false hi => Ok MissingItemSignal hi
  | Raise e t => Raise e t
  end.
Proof.
  intros Hlive Hcat. unfold classify. rewrite Hlive.
  cbv beta iota zeta delta [bind ret negb]. rewrite Hcat.
  destruct (row_has_item_color env (fst list_pos) (snd list_pos) cfg hc)
    as [[|] hi|e t]; reflexivity.
Qed.

Lemma world_pos_ok cfg lc n h :
  per_row cfg <> 0 ->
  world_pos cfg lc n h =
  Ok (fst (resolved_origin lc) + (n mod per_row cfg) * spacing_pixels cfg,
      snd (resolved_origin lc) + (n / per_row cfg) * spacing_pixels cfg) h.
Proof.
  intros Hp. unfold world_pos, py_mod, py_floordiv, bind, ret.
  apply Z.eqb_neq in Hp. now rewrite Hp.
Qed.

Lemma world_pos_zero cfg lc n h :
  per_row cfg = 0 -> world_pos cfg lc n h = Raise ZeroDivisionError h.
Proof.
  intros Hp. unfold world_pos, py_mod, py_floordiv, bind, raise.
  apply Z.eqb_eq in Hp. now rewrite Hp.
Qed.

(** C4.  In a live run, when a category colour is configured and the pixel
    sampled at the category icon of the row matches it, the iteration does
    nothing after the scroll step but that one sample: the index advances by
    one, [placed] is unchanged, and there is no item-colour sample, no pointer
    move, no click and no printed line, whatever the item-colour settings
    are. *)
Theorem category_short_circuits_item_check env cfg lc st h color c riv hs :
  dry_run cfg = false ->
  category_color cfg = Some color ->
  scroll_into_view cfg lc st h = Ok (c, riv) hs ->
  pixelMatchesColor env hs (list_start_x lc + category_icon_offset_x cfg)
    (list_start_y lc + riv * row_height cfg) color (category_color_tolerance cfg)
  = Some true ->
  loop_body env cfg lc st h =
    Ok {| scroll_rows_consumed := c; placed := placed st; index := index st + 1 |}
       (hs ++ [ESample (list_start_x lc + category_icon_offset_x cfg)
                 (list_start_y lc + riv * row_height cfg) color
                 (category_color_tolerance cfg) (Some true)]) /\
  exists evs,
    hs ++ [ESample (list_start_x lc + category_icon_offset_x cfg)
             (list_start_y lc + riv * row_height cfg) color
             (category_color_tolerance cfg) (Some true)] = h ++ evs /\
    count is_sample evs = 1 /\ count is_click evs = 0 /\
    count is_move evs = 0 /\ count is_print evs = 0.
Proof.
  intros Hdry Hcat Hs Hpix. split.
  - unfold loop_body. unfold bind at 1. rewrite Hs. rewrite Hdry. cbn [negb fst snd].
    unfold bind at 1. rewrite is_category_row_eq, Hcat. cbv zeta. rewrite Hpix.
    reflexivity.
  - rewrite scroll_into_view_eq in Hs. cbv zeta in Hs.
    assert (Hhs : hs = h ++ scroll_events cfg lc st)
      by (destruct (_ >=? _) in Hs; inversion Hs; reflexivity).
    rewrite Hhs, <- app_assoc. eexists; split; [reflexivity|].
    rewrite !count_app. unfold scroll_events. cbv zeta.
    destruct (_ >=? _); rewrite ?Hdry; repeat split; reflexivity.
Qed.

(** The first row of a live run on a screen where every sample matches, with
    a category colour configured and the item colour required. *)
Lemma category_short_circuits_item_check_witness :
  loop_body (uniform_screen (Some true))
    (configure (Some 1080) None (Some (300, 200)) (Some (200, 200, 200)) true false)
    live_1080_locals initial_state live_1080_setup_trace
  = Ok {| scroll_rows_consumed := 0; placed := 0; index := 1 |}
       (live_1080_setup_trace ++ [ESample 96 40 (200, 200, 200) 8 (Some true)]).
Proof.
  exact (proj1
    (category_short_circuits_item_check (uniform_screen (Some true))
       (configure (Some 1080) None (Some (300, 200)) (Some (200, 200, 200)) true false)
       live_1080_locals initial_state live_1080_setup_trace (200, 200, 200)
       0 0 live_1080_setup_trace eq_refl eq_refl eq_refl eq_refl)).
Defined.

(** ** Sampling failures *)

(** A screen on which sampling left of [x = 100] raises and every other
    pixel matches. *)
Definition left_edge_fails : Env :=
  {| template_exists := true;
     locateOnScreen := Some (mkBox 100 0 200 20);
     position := (300, 200);
     size_height := Some 1080;
     pixelMatchesColor := fun _ x _ _ _ => if x <? 100 then None else Some true |}.

(** C5, counterexample.  With a category colour configured, a sample of the
    category icon that raises makes [is_category_row] answer [False], so the
    row is not taken for a category row; the item colour then matches, and
    the row is not skipped but clicked and placed. *)
Lemma sampling_failure_row_placed :
  exists st' evs,
    loop_body left_edge_fails
      (configure (Some 1080) None (Some (300, 200)) (Some (200, 200, 200)) true false)
      live_1080_locals initial_state live_1080_setup_trace
    = Ok st' (live_1080_setup_trace ++ evs) /\
    In (ESample 96 40 (200, 200, 200) 8 None) evs /\
    placed st' = placed initial_state + 1 /\
    count is_click evs = 2.
Proof.
  exists {| scroll_rows_consumed := 0; placed := 1; index := 1 |},
    [ESample 96 40 (200, 200, 200) 8 None;
     ESample 136 52 (142, 125, 18) 10 (Some true);
     EMoveTo 110 40; EClick; ESleep (5 # 100);
     EMoveTo 300 200; EClick; ESleep (1 # 10)].
  split; [reflexivity|]. split; [left; reflexivity|]. split; reflexivity.
Qed.

(** C5, amended.  Neither classifier function ever raises: each returns, and
    when its pixel sample raised it returns [False].  In [row_has_item_color]
    that skips the row: the iteration prints the diagnostic, leaves [placed]
    as it was and clicks nothing.  In [is_category_row] it only means the row
    is not taken for a category row: the iteration goes on to the item-colour
    check on the trace the failed sample left, and the row is clicked and
    placed if that check passes, skipped with the diagnostic if it does
    not. *)
Theorem sampling_failure_is_non_match env cfg list_x list_y h :
  (exists b evs,
      is_category_row env list_x list_y cfg h = Ok b (h ++ evs) /\
      (forall x y color tol, In (ESample x y color tol None) evs -> b = false)) /\
  (exists b evs,
      row_has_item_color env list_x list_y cfg h = Ok b (h ++ evs) /\
      (forall x y color tol, In (ESample x y color tol None) evs -> b = false)) /\
  (forall lc st c riv hs hc color,
      dry_run cfg = false ->
      scroll_into_view cfg lc st h = Ok (c, riv) hs ->
      is_category_row env (list_start_x lc) (list_start_y lc + riv * row_height cfg)
        cfg hs = Ok false hc ->
      item_color cfg = Some color ->
      require_item_color cfg = true ->
      pixelMatchesColor env hc (list_start_x lc + item_color_offset_x cfg)
        (list_start_y lc + riv * row_height cfg + item_color_offset_y cfg) color
        (item_color_tolerance cfg) = None ->
      loop_body env cfg lc st h =
        Ok {| scroll_rows_consumed := c; placed := placed st; index := index st + 1 |}
           (hc ++ [ESample (list_start_x lc + item_color_offset_x cfg)
                     (list_start_y lc + riv * row_height cfg + item_color_offset_y cfg)
                     color (item_color_tolerance cfg) None;
                   EPrint ("Skipping row " ++ str_int (index st)
                           ++ ": item color not detected at "
                           ++ str_pair (list_start_x lc,
                                        list_start_y lc + riv * row_height cfg)
                           ++ ".")%string])) /\
  (forall lc st c riv hs color,
      dry_run cfg = false ->
      scroll_into_view cfg lc st h = Ok (c, riv) hs ->
      category_color cfg = Some color ->
      pixelMatchesColor env hs (list_start_x lc + category_icon_offset_x cfg)
        (list_start_y lc + riv * row_height cfg) color
        (category_color_tolerance cfg) = None ->
      is_category_row env (list_start_x lc) (list_start_y lc + riv * row_height cfg)
        cfg hs
      = Ok false
          (hs ++ [ESample (list_start_x lc + category_icon_offset_x cfg)
                    (list_start_y lc + riv * row_height cfg) color
                    (category_color_tolerance cfg) None]) /\
      (forall hi wpos hw,
          row_has_item_color env (list_start_x lc)
            (list_start_y lc + riv * row_height cfg) cfg
            (hs ++ [ESample (list_start_x lc + category_icon_offset_x cfg)
                      (list_start_y lc + riv * row_height cfg) color
                      (category_color_tolerance cfg) None])
          = Ok true hi ->
          world_pos cfg lc (placed st) hi = Ok wpos hw ->
          loop_body env cfg lc st h =
          Ok {| scroll_rows_consumed := c; placed := placed st + 1;
                index := index st + 1 |}
             (hw ++ [EMoveTo (list_start_x lc) (list_start_y lc + riv * row_height cfg);
                     EClick; ESleep (click_delay cfg);
                     EMoveTo (fst wpos) (snd wpos);
                     EClick; ESleep (place_delay cfg)])) /\
      (forall hi,
          row_has_item_color env (list_start_x lc)
            (list_start_y lc + riv * row_height cfg) cfg
            (hs ++ [ESample (list_start_x lc + category_icon_offset_x cfg)
                      (list_start_y lc + riv * row_height cfg) color
                      (category_color_tolerance cfg) None])
          = Ok false hi ->
          loop_body env cfg lc st h =
          Ok {| scroll_rows_consumed := c; placed := placed st; index := index st + 1 |}
             (hi ++ [EPrint (skip_message (index st)
                               (list_start_x lc,
                                list_start_y lc + riv * row_height cfg))]))).
Proof.
  split; [|split; [|split]].
  - rewrite is_category_row_eq. destruct (category_color cfg) as [color|].
    + cbv zeta. do 2 eexists. split; [reflexivity|].
      intros x y c t [Hin|[]]. injection Hin as _ _ _ _ Ha.
      now rewrite Ha.
    + exists false, []. rewrite app_nil_r. split; [reflexivity|intros ? ? ? ? []].
  - rewrite row_has_item_color_eq. destruct (item_color cfg) as [color|].
    + destruct (require_item_color cfg); simpl.
      * do 2 eexists. split; [reflexivity|].
        intros x y c t [Hin|[]]. injection Hin as _ _ _ _ Ha.
        now rewrite Ha.
      * exists true, []. rewrite app_nil_r. split; [reflexivity|intros ? ? ? ? []].
    + exists true, []. rewrite app_nil_r. split; [reflexivity|intros ? ? ? ? []].
  - intros lc st c riv hs hc color Hdry Hs Hcat Hitem Hreq Hpix.
    unfold loop_body. unfold bind at 1. rewrite Hs, Hdry. cbn [negb fst snd].
    unfold bind at 1. rewrite Hcat.
    unfold bind at 1. unfold bind at 1.
    rewrite row_has_item_color_eq, Hitem, Hreq. cbv zeta. cbn [negb].
    rewrite Hpix. unfold ret at 1. cbn [negb].
    unfold bind, print, emit, ret. rewrite <- app_assoc. reflexivity.
  - intros lc st c riv hs color Hlive Hs Hcat Hpix.
    assert (Hrow : is_category_row env (list_start_x lc)
                     (list_start_y lc + riv * row_height cfg) cfg hs
                   = Ok false
                       (hs ++ [ESample (list_start_x lc + category_icon_offset_x cfg)
                                 (list_start_y lc + riv * row_height cfg) color
                                 (category_color_tolerance cfg) None])).
    { rewrite is_category_row_eq, Hcat. cbv zeta. rewrite Hpix. reflexivity. }
    split; [exact Hrow|].
    pose proof (classify_by_item_color env cfg
                  (list_start_x lc, list_start_y lc + riv * row_height cfg)
                  hs _ Hlive Hrow) as Hclass.
    cbn [fst snd] in Hclass.
    split.
    + intros hi wpos hw Hitem Hw. rewrite Hitem in Hclass.
      rewrite (loop_body_by_class env cfg lc st h c riv hs Hs), Hclass, Hw.
      unfold placement_events. rewrite Hlive. reflexivity.
    + intros hi Hitem. rewrite Hitem in Hclass.
      rewrite (loop_body_by_class env cfg lc st h c riv hs Hs), Hclass.
      reflexivity.
Qed.

(** The first row of a live run on a screen where every sample raises. *)
Lemma sampling_failure_is_non_match_witness :
  loop_body (uniform_screen None) live_1080_config live_1080_locals initial_state
    live_1080_setup_trace
  = Ok {| scroll_rows_consumed := 0; placed := 0; index := 1 |}
       (live_1080_setup_trace ++
        [ESample 136 52 (142, 125, 18) 10 None;
         EPrint "Skipping row 0: item color not detected at (110, 40)."]).
Proof.
  exact (proj1 (proj2 (proj2
    (sampling_failure_is_non_match (uniform_screen None) live_1080_config 0 0
       live_1080_setup_trace)))
    live_1080_locals initial_state 0 0 live_1080_setup_trace live_1080_setup_trace
    (142, 125, 18) eq_refl eq_refl eq_refl eq_refl eq_refl eq_refl).
Defined.

(** ** Reaching the limit *)

Section LimitFacts.
Variable env : Env.
Variable cfg : PlacementConfig.
Variable lc : locals.

(** One iteration, seen through [placed] and the counts of clicks and
    printed lines in the whole trace. *)
Lemma loop_body_counts st h st' h' :
  loop_body env cfg lc st h = Ok st' h' ->
  exists evs, h' = h ++ evs /\
    ((placed st' = placed st /\ count is_click evs = 0 /\ dry_run cfg = false) \/
     (placed st' = placed st + 1 /\
      count is_click evs = (if dry_run cfg then 0 else 2) /\
      count is_print evs = (if dry_run cfg then 1 else 0))).
Proof.
  intros H. apply loop_body_ok in H.
  destruct H as (c & riv & evs & _ & Hh & _ & _ & _ & Hcases).
  exists (scroll_events cfg lc st ++ evs). split; [assumption|].
  rewrite !count_app, scroll_events_no_click, scroll_events_no_print.
  destruct Hcases as [(Hp & Hc & Hd)|(Hp & Hc & Hpr)]; [left|right];
    repeat split; assumption.
Qed.

Variable L : Z.
Hypothesis limit_is_L : limit cfg = Some L.

(** If the first [n] rows can be processed and at least [L] of them are
    placed, the loop returns within [n] iterations, having placed exactly
    [L] rows. *)
Lemma while_loop_reaches_limit n : forall st h st_n h_n,
  placed st <= L ->
  iterate env cfg lc n st h = Ok st_n h_n ->
  L <= placed st_n ->
  exists fuel stf evs,
    (fuel <= n)%nat /\
    while_loop env cfg lc fuel st h = Ok (Returned PyNone stf) (h ++ evs) /\
    placed stf = L /\
    (dry_run cfg = false -> count is_click evs = 2 * (L - placed st)) /\
    (dry_run cfg = true -> count is_print evs = L - placed st).
Proof.
  assert (Hstop : forall st h, placed st = L ->
    while_loop env cfg lc O st h = Ok (Returned PyNone st) (h ++ [])).
  { intros st h Hp. rewrite app_nil_r, while_loop_unfold.
    unfold loop_condition. rewrite limit_is_L.
    replace (placed st <? L) with false by (symmetry; apply Z.ltb_ge; lia).
    reflexivity. }
  induction n as [|k IH]; intros st h st_n h_n Hle Hit Hge.
  - simpl in Hit. unfold ret in Hit. inversion Hit; subst.
    assert (Heq : placed st_n = L) by lia.
    exists O, st_n, []. rewrite !count_nil.
    split; [lia|]. split; [now apply Hstop|]. split; [lia|]. split; intros _; lia.
  - destruct (Z.eq_dec (placed st) L) as [Heq|Hne].
    + exists O, st, []. rewrite !count_nil.
      split; [lia|]. split; [now apply Hstop|]. split; [lia|]. split; intros _; lia.
    + simpl in Hit. unfold bind in Hit.
      destruct (loop_body env cfg lc st h) as [s1 h1|] eqn:Hb; [|discriminate].
      destruct (loop_body_counts _ _ _ _ Hb) as (evs1 & Hh1 & Hcases).
      assert (Hle1 : placed s1 <= L) by (destruct Hcases as [(?&_)|(?&_)]; lia).
      destruct (IH s1 h1 st_n h_n Hle1 Hit Hge)
        as (fuel & stf & evs & Hf & Hrun & Hpl & Hcl & Hpr).
      exists (S fuel), stf, (evs1 ++ evs). split; [lia|]. split.
      * rewrite while_loop_unfold. unfold loop_condition. rewrite limit_is_L.
        replace (placed st <? L) with true by (symmetry; apply Z.ltb_lt; lia).
        cbn [negb]. rewrite Hb, Hrun, Hh1, <- app_assoc. reflexivity.
      * split; [exact Hpl|]. rewrite !count_app. split; intros Hdry.
        -- specialize (Hcl Hdry).
           destruct Hcases as [(Hp & Hc & _)|(Hp & Hc & _)];
             rewrite ?Hdry in Hc; lia.
        -- specialize (Hpr Hdry).
           destruct Hcases as [(_ & _ & Hd)|(Hp & _ & Hc)];
             [congruence|]. rewrite Hdry in Hc. lia.
Qed.
End LimitFacts.

(** ** Dry runs *)

(** The value of [scroll_rows_consumed] after the scroll step. *)
Definition offset_after_scroll (lc : locals) (st : loop_state) : Z :=
  let row_in_view := index st - scroll_rows_consumed st in
  if row_in_view >=? visible_rows lc
  then scroll_rows_consumed st + (row_in_view - visible_rows lc + 1)
  else scroll_rows_consumed st.

Lemma loop_body_dry env cfg lc st h :
  dry_run cfg = true ->
  loop_body env cfg lc st h =
  let c := offset_after_scroll lc st in
  if per_row cfg =? 0 then Raise ZeroDivisionError h
  else
    Ok {| scroll_rows_consumed := c; placed := placed st + 1; index := index st + 1 |}
       (h ++ [EPrint
                (would_click
                   (list_start_x lc, list_start_y lc + (index st - c) * row_height cfg)
                   (fst (resolved_origin lc)
                    + (placed st mod per_row cfg) * spacing_pixels cfg,
                    snd (resolved_origin lc)
                    + (placed st / per_row cfg) * spacing_pixels cfg))]).
Proof.
  intros Hdry. unfold loop_body, offset_after_scroll. unfold bind at 1.
  rewrite scroll_into_view_eq. unfold scroll_events. cbv zeta.
  rewrite Hdry.
  destruct (index st - scroll_rows_consumed st >=? visible_rows lc);
    rewrite app_nil_r; cbn [negb fst snd];
    unfold world_pos, py_mod, py_floordiv, print, emit, bind, ret, raise, would_click;
    destruct (per_row cfg =? 0); reflexivity.
Qed.

Definition trace_of {A} (r : result A) : trace :=
  match r with
  | Ok _ h => h
  | Raise _ h => h
  end.

(** The value a computation returned, or the exception it raised. *)
Definition value_of {A} (r : result A) : A + exn :=
  match r with
  | Ok a _ => inl a
  | Raise e _ => inr e
  end.

(** The lines a trace printed, in order. *)
Definition printed (t : trace) : list string :=
  flat_map (fun e => match e with EPrint line => [line] | _ => [] end) t.

Lemma printed_app t1 t2 : printed (t1 ++ t2) = printed t1 ++ printed t2.
Proof. unfold printed. apply flat_map_app. Qed.

Definition would_click_line (e : event) : Prop :=
  exists list_pos wpos, e = EPrint (would_click list_pos wpos).

(** The set-up of a dry run does not get past line 138: [pyautogui.Box] does
    not exist. *)
Lemma setup_dry env cfg h :
  dry_run cfg = true -> setup env cfg h = Raise AttributeError h.
Proof. intros Hdry. unfold setup. rewrite Hdry. reflexivity. Qed.

Section DryFacts.
Variable cfg : PlacementConfig.
Variable lc : locals.
Hypothesis is_dry : dry_run cfg = true.


(** A dry run adds only its own lines to the trace, and they do not depend
    on what the trace held before. *)
Lemma while_loop_dry_lines env fuel : forall st h,
  exists lines,
    Forall would_click_line lines /\
    trace_of (while_loop env cfg lc fuel st h) = h ++ lines /\
    (forall h',
        trace_of (while_loop env cfg lc fuel st h') = h' ++ lines /\
        value_of (while_loop env cfg lc fuel st h') =
        value_of (while_loop env cfg lc fuel st h)).
Proof.
  induction fuel as [|fuel IH]; intros st h.
  - exists []. split; [constructor|]. rewrite !while_loop_unfold.
    split; [destruct (loop_condition cfg st); simpl; now rewrite app_nil_r|].
    intros h'. rewrite !while_loop_unfold.
    destruct (loop_condition cfg st); simpl; now rewrite app_nil_r.
  - destruct (loop_condition cfg st) eqn:Hc.
    + destruct (per_row cfg =? 0) eqn:Hp.
      * exists []. split; [constructor|].
        assert (Heq : forall t, while_loop env cfg lc (S fuel) st t
                                = Raise ZeroDivisionError t).
        { intros t. rewrite while_loop_unfold, Hc, loop_body_dry by exact is_dry.
          cbv zeta. rewrite Hp. reflexivity. }
        rewrite !Heq. simpl. split; [now rewrite app_nil_r|].
        intros h'. rewrite Heq. simpl. now rewrite app_nil_r.
      * set (c := offset_after_scroll lc st).
        set (st1 := {| scroll_rows_consumed := c; placed := placed st + 1;
                       index := index st + 1 |}).
        set (line := EPrint
              (would_click
                 (list_start_x lc, list_start_y lc + (index st - c) * row_height cfg)
                 (fst (resolved_origin lc)
                  + (placed st mod per_row cfg) * spacing_pixels cfg,
                  snd (resolved_origin lc)
                  + (placed st / per_row cfg) * spacing_pixels cfg))).
        assert (Heq : forall t, while_loop env cfg lc (S fuel) st t
                                = while_loop env cfg lc fuel st1 (t ++ [line])).
        { intros t. rewrite while_loop_unfold, Hc, loop_body_dry by exact is_dry.
          cbv zeta. rewrite Hp. reflexivity. }
        destruct (IH st1 (h ++ [line])) as (lines & Hall & Htr & Hframe).
        exists (line :: lines). split.
        { constructor; [|exact Hall]. do 2 eexists. reflexivity. }
        rewrite !Heq. split; [rewrite Htr, <- app_assoc; reflexivity|].
        intros h'. rewrite Heq. destruct (Hframe (h' ++ [line])) as [Ht Hv].
        rewrite Ht, Hv, <- app_assoc. split; reflexivity.
    + exists []. split; [constructor|].
      split; [rewrite while_loop_unfold, Hc; simpl; now rewrite app_nil_r|].
      intros h'. rewrite !while_loop_unfold, Hc. simpl. now rewrite app_nil_r.
Qed.

(** In a dry run every row is placed. *)
Lemma iterate_dry env n : forall st h,
  per_row cfg <> 0 ->
  exists st' h',
    iterate env cfg lc n st h = Ok st' h' /\
    placed st' = placed st + Z.of_nat n /\
    index st' = index st + Z.of_nat n.
Proof.
  induction n as [|n IH]; intros st h Hp.
  - exists st, h. split; [reflexivity|]. simpl. lia.
  - cbn [iterate]. unfold bind. rewrite loop_body_dry by exact is_dry. cbv zeta.
    apply Z.eqb_neq in Hp. rewrite Hp. apply Z.eqb_neq in Hp.
    edestruct IH as (st' & h' & Hit & Hpl & Hidx); [exact Hp|].
    exists st', h'. split; [exact Hit|]. cbn [placed index] in *. lia.
Qed.
End DryFacts.

Lemma would_click_lines_count p lines :
  (forall line, p (EPrint line) = false) ->
  Forall would_click_line lines -> count p lines = 0.
Proof.
  intros Hp Hall. apply count_zero_Forall.
  eapply Forall_impl; [|exact Hall].
  intros e (lp & wp & He). subst e. apply Hp.
Qed.

Lemma would_click_lines_prints lines :
  Forall would_click_line lines -> count is_print lines = Z.of_nat (List.length lines).
Proof.
  unfold count. induction 1 as [|e l (lp & wp & He) _ IH]; [reflexivity|].
  subst e. simpl. lia.
Qed.

(** In a dry run with [limit = L] the loop returns after [L] iterations,
    one printed line each. *)
Lemma while_loop_dry_returns env cfg lc h0 L :
  dry_run cfg = true ->
  limit cfg = Some L ->
  0 <= L ->
  per_row cfg <> 0 ->
  exists st evs,
    while_loop env cfg lc (Z.to_nat L) initial_state h0
    = Ok (Returned PyNone st) (h0 ++ evs) /\
    placed st = L /\
    count is_print evs = L /\ count is_click evs = 0 /\
    Forall would_click_line evs.
Proof.
  intros Hdry Hlim HL Hper.
  destruct (iterate_dry cfg lc Hdry env (Z.to_nat L) initial_state h0 Hper)
    as (st_n & h_n & Hit & Hpl & _).
  simpl in Hpl. rewrite Z2Nat.id in Hpl by exact HL.
  destruct (while_loop_reaches_limit env cfg lc L Hlim (Z.to_nat L)
              initial_state h0 st_n h_n)
    as (fuel & st & evs & Hf & Hrun & Hp & _ & Hpr); [simpl; lia|assumption|lia|].
  specialize (Hpr Hdry). simpl in Hpr. rewrite Z.sub_0_r in Hpr.
  exists st, evs.
  replace (Z.to_nat L) with (fuel + (Z.to_nat L - fuel))%nat by lia.
  rewrite (while_loop_returned_plus env cfg lc _ _ _ _ _ _ _ Hrun).
  split; [reflexivity|]. split; [exact Hp|]. split; [exact Hpr|].
  destruct (while_loop_dry_lines cfg lc Hdry env fuel initial_state h0)
    as (lines & Hall & Htr & _).
  rewrite Hrun in Htr. simpl in Htr. apply app_inv_head in Htr. subst evs.
  split; [|exact Hall]. apply would_click_lines_count; [reflexivity|exact Hall].
Qed.

(** ** The rows a run meets *)

Definition is_valid (cls : row_class) : bool :=
  match cls with Valid => true | _ => false end.

(** How many rows of a list of classes are valid. *)
Definition count_valid (l : list row_class) : Z :=
  Z.of_nat (List.length (filter is_valid l)).

(** The classes of the next [n] rows, as the loop body meets them one after
    the other from [st] and [h] on (the limit left out). *)
Fixpoint classes (env : Env) (cfg : PlacementConfig) (lc : locals)
    (n : nat) (st : loop_state) (h : trace) : list row_class :=
  match n with
  | O => []
  | S n' =>
      match scroll_into_view cfg lc st h with
      | Ok (c, riv) hs =>
          match classify env cfg
                  (list_start_x lc, list_start_y lc + riv * row_height cfg) hs with
          | Ok cls _ =>
              cls :: match loop_body env cfg lc st h with
                     | Ok st' h' => classes env cfg lc n' st' h'
                     | Raise _ _ => []
                     end
          | Raise _ _ => []
          end
      | Raise _ _ => []
      end
  end.

Section ClassFacts.
Variable env : Env.
Variable cfg : PlacementConfig.
Variable lc : locals.

Lemma scroll_into_view_total st h :
  exists c riv hs, scroll_into_view cfg lc st h = Ok (c, riv) hs.
Proof.
  rewrite scroll_into_view_eq. cbv zeta.
  destruct (_ >=? _); eauto.
Qed.

(** With [per_row] not zero an iteration always completes, and it adds one
    to [placed] exactly when its row is valid. *)
Lemma loop_body_class_step st h :
  per_row cfg <> 0 ->
  exists c riv hs cls hc st' h',
    scroll_into_view cfg lc st h = Ok (c, riv) hs /\
    classify env cfg (list_start_x lc, list_start_y lc + riv * row_height cfg) hs
    = Ok cls hc /\
    loop_body env cfg lc st h = Ok st' h' /\
    placed st' = placed st + (if is_valid cls then 1 else 0) /\
    index st' = index st + 1.
Proof.
  intros Hper.
  destruct (scroll_into_view_total st h) as (c & riv & hs & Hs).
  destruct (classify_total env cfg
              (list_start_x lc, list_start_y lc + riv * row_height cfg) hs)
    as (cls & hc & Hc).
  exists c, riv, hs, cls, hc.
  rewrite (loop_body_by_class env cfg lc st h c riv hs Hs), Hc.
  destruct cls; rewrite ?(world_pos_ok cfg lc (placed st) hc Hper);
    do 2 eexists;
    (split; [exact Hs|]); (split; [reflexivity|]); (split; [reflexivity|]);
    cbn [placed index is_valid]; split; lia.
Qed.

(** [placed] counts the valid rows, and the index all rows. *)
Lemma iterate_classes n : forall st h,
  per_row cfg <> 0 ->
  exists st' h',
    iterate env cfg lc n st h = Ok st' h' /\
    placed st' = placed st + count_valid (classes env cfg lc n st h) /\
    index st' = index st + Z.of_nat n /\
    List.length (classes env cfg lc n st h) = n.
Proof.
  induction n as [|n IH]; intros st h Hper.
  - exists st, h. cbn [iterate classes]. unfold count_valid. simpl.
    repeat split; try reflexivity; lia.
  - destruct (loop_body_class_step st h Hper)
      as (c & riv & hs & cls & hc & st1 & h1 & Hs & Hc & Hb & Hp & Hi).
    destruct (IH st1 h1 Hper) as (st' & h' & Hit & Hpl & Hidx & Hlen).
    exists st', h'. cbn [iterate classes]. unfold bind. rewrite Hs, Hc, Hb.
    split; [exact Hit|]. unfold count_valid in *. cbn [filter].
    destruct cls; cbn [is_valid List.length] in *;
      (split; [lia|]); (split; [lia|]); now rewrite Hlen.
Qed.

(** A loop that returned did so after some number of iterations. *)
Lemma while_loop_returned_iterations fuel : forall st h v stf hf,
  while_loop env cfg lc fuel st h = Ok (Returned v stf) hf ->
  exists k,
    (k <= fuel)%nat /\
    iterate env cfg lc k st h = Ok stf hf /\
    while_loop env cfg lc k st h = Ok (Returned v stf) hf.
Proof.
  induction fuel as [|fuel IH]; intros st h v stf hf H;
    rewrite while_loop_unfold in H;
    destruct (loop_condition cfg st) eqn:Hc; cbn [negb] in H; try discriminate H.
  - inversion H; subst. exists O. rewrite while_loop_unfold, Hc.
    split; [lia|]. split; reflexivity.
  - destruct (loop_body env cfg lc st h) as [s1 h1|] eqn:Hb; [|discriminate].
    destruct (IH _ _ _ _ _ H) as (k & Hk & Hit & Hw).
    exists (S k). split; [lia|]. split.
    + cbn [iterate]. unfold bind. now rewrite Hb.
    + rewrite while_loop_unfold, Hc. cbn [negb]. now rewrite Hb.
  - inversion H; subst. exists O. rewrite while_loop_unfold, Hc.
    split; [lia|]. split; reflexivity.
Qed.
End ClassFacts.

(** C3.  With [limit = L], [L >= 0] and [per_row] not zero: if at least [L]
    of the first [n] rows classify as valid, the loop returns after some
    [k <= n] iterations with [placed = L]; of the [k] rows it went through,
    exactly [L] were valid and the other [k - L], the category rows and the
    rows without the item colour, were skipped and not counted; [L]
    placements were carried out (two clicks each in a live run, one printed
    line each in a dry run).  In a dry run every row is valid and the loop
    returns after exactly [L] iterations.  What an iteration does is decided
    by the class of its row: a row whose category sample matches, or whose
    item colour is required and not found, leaves [placed] as it was; a valid
    row is placed and adds one. *)
Theorem limit_termination env cfg lc h0 L :
  limit cfg = Some L ->
  0 <= L ->
  per_row cfg <> 0 ->
  (forall n,
      L <= count_valid (classes env cfg lc n initial_state h0) ->
      exists k st evs,
        (k <= n)%nat /\
        while_loop env cfg lc k initial_state h0
        = Ok (Returned PyNone st) (h0 ++ evs) /\
        placed st = L /\
        index st = Z.of_nat k /\
        List.length (classes env cfg lc k initial_state h0) = k /\
        count_valid (classes env cfg lc k initial_state h0) = L /\
        (dry_run cfg = false -> count is_click evs = 2 * L) /\
        (dry_run cfg = true -> count is_print evs = L)) /\
  (dry_run cfg = true ->
   (forall list_pos h, classify env cfg list_pos h = Ok Valid h) /\
   exists st evs,
     while_loop env cfg lc (Z.to_nat L) initial_state h0
     = Ok (Returned PyNone st) (h0 ++ evs) /\
     placed st = L /\
     count is_print evs = L /\ count is_click evs = 0 /\
     Forall would_click_line evs) /\
  (forall st h c riv hs,
      scroll_into_view cfg lc st h = Ok (c, riv) hs ->
      loop_body env cfg lc st h =
      match classify env cfg
              (list_start_x lc, list_start_y lc + riv * row_height cfg) hs with
      | Ok Category hc =>
          Ok {| scroll_rows_consumed := c; placed := placed st;
                index := index st + 1 |} hc
      | Ok MissingItemSignal hc =>
          Ok {| scroll_rows_consumed := c; placed := placed st;
                index := index st + 1 |}
             (hc ++ [EPrint (skip_message (index st)
                               (list_start_x lc,
                                list_start_y lc + riv * row_height cfg))])
      | Ok Valid hc =>
          Ok {| scroll_rows_consumed := c; placed := placed st + 1;
                index := index st + 1 |}
             (hc ++ placement_events cfg
                      (list_start_x lc, list_start_y lc + riv * row_height cfg)
                      (fst (resolved_origin lc)
                       + (placed st mod per_row cfg) * spacing_pixels cfg,
                       snd (resolved_origin lc)
                       + (placed st / per_row cfg) * spacing_pixels cfg))
      | Raise e t => Raise e t
      end) /\
  (forall list_pos h color,
      dry_run cfg = false ->
      category_color cfg = Some color ->
      pixelMatchesColor env h (fst list_pos + category_icon_offset_x cfg)
        (snd list_pos) color (category_color_tolerance cfg) = Some true ->
      classify env cfg list_pos h =
      Ok Category
         (h ++ [ESample (fst list_pos + category_icon_offset_x cfg) (snd list_pos)
                  color (category_color_tolerance cfg) (Some true)])) /\
  (forall list_pos h hc,
      dry_run cfg = false ->
      is_category_row env (fst list_pos) (snd list_pos) cfg h = Ok false hc ->
      classify env cfg list_pos h =
      match row_has_item_color env (fst list_pos) (snd list_pos) cfg hc with
      | Ok true hi => Ok Valid hi
      | Ok false hi => Ok MissingItemSignal hi
      | Raise e t => Raise e t
      end).
Proof.
  intros Hlim HL Hper.
  split; [|split; [|split; [|split]]].
  - intros n Hvalid.
    destruct (iterate_classes env cfg lc n initial_state h0 Hper)
      as (st_n & h_n & Hit & Hpl & _ & _).
    cbn [placed initial_state] in Hpl.
    destruct (while_loop_reaches_limit env cfg lc L Hlim n initial_state h0 st_n h_n)
      as (fuel & st & evs & Hf & Hrun & Hp & Hc & Hpr);
      [cbn [placed initial_state]; lia | exact Hit | lia |].
    cbn [placed initial_state] in Hc, Hpr. rewrite Z.sub_0_r in Hc, Hpr.
    destruct (while_loop_returned_iterations env cfg lc fuel _ _ _ _ _ Hrun)
      as (k & Hk & Hitk & Hwk).
    destruct (iterate_classes env cfg lc k initial_state h0 Hper)
      as (st_k & h_k & Hitk' & Hplk & Hidxk & Hlenk).
    rewrite Hitk in Hitk'. inversion Hitk'; subst st_k h_k.
    cbn [placed index initial_state] in Hplk, Hidxk.
    exists k, st, evs.
    split; [lia|]. split; [exact Hwk|]. split; [exact Hp|].
    split; [lia|]. split; [exact Hlenk|]. split; [lia|]. split; assumption.
  - intros Hdry. split; [intros list_pos h; now apply classify_dry|].
    now apply while_loop_dry_returns.
  - intros st h c riv hs Hs.
    rewrite (loop_body_by_class env cfg lc st h c riv hs Hs).
    destruct (classify env cfg _ hs) as [[| |] hc|e t]; try reflexivity.
    now rewrite (world_pos_ok cfg lc (placed st) hc Hper).
  - intros list_pos h color. apply classify_category.
  - intros list_pos h hc. apply classify_by_item_color.
Qed.

(** A screen on which the category icon matches whenever the number of
    events so far is a multiple of three, and the item colour always
    matches: in a live run, category rows and item rows alternate. *)
Definition alternating_screen : Env :=
  {| template_exists := true;
     locateOnScreen := Some (mkBox 100 0 200 20);
     position := (300, 200);
     size_height := Some 1080;
     pixelMatchesColor := fun h _ _ color _ =>
       match color with
       | (200, 200, 200) => Some (Nat.eqb (Nat.modulo (List.length h) 3) 0)
       | _ => Some true
       end |}.

Definition alternating_config : PlacementConfig :=
  configure (Some 1080) (Some 2) (Some (300, 200)) (Some (200, 200, 200)) true false.

Definition alternating_trace_4 : trace :=
  Eval vm_compute in
    trace_of (iterate alternating_screen alternating_config live_1080_locals 4%nat
                initial_state live_1080_setup_trace).

(** Of the first four rows two are category rows and two are valid: the loop
    returns after those four, with the two category rows skipped. *)
Lemma limit_termination_witness :
  exists k st evs,
    (k <= 4)%nat /\
    while_loop alternating_screen alternating_config live_1080_locals k
      initial_state live_1080_setup_trace
    = Ok (Returned PyNone st) (live_1080_setup_trace ++ evs) /\
    placed st = 2 /\
    index st = Z.of_nat k /\
    List.length (classes alternating_screen alternating_config live_1080_locals k
                   initial_state live_1080_setup_trace) = k /\
    count_valid (classes alternating_screen alternating_config live_1080_locals k
                   initial_state live_1080_setup_trace) = 2 /\
    (dry_run alternating_config = false -> count is_click evs = 2 * 2) /\
    (dry_run alternating_config = true -> count is_print evs = 2).
Proof.
  refine (proj1 (limit_termination alternating_screen alternating_config
                   live_1080_locals live_1080_setup_trace 2 eq_refl _ _) 4%nat _).
  - lia.
  - discriminate.
  - vm_compute. discriminate.
Defined.

(** ** The whole function in a dry run *)

(** C7, the code at its failing input.  A dry run does not get past line
    138: evaluating [pyautogui.Box] raises [AttributeError] before anything
    is sampled, moved, clicked, scrolled or printed, whatever the screen and
    however many iterations the run is allowed.  The loop itself, from
    whatever locals, would add nothing to the trace in a dry run but its
    "Would click ..." lines. *)
Theorem dry_run_raises_attribute_error env cfg fuel :
  dry_run cfg = true ->
  place_objects env cfg fuel [] = Raise AttributeError [] /\
  (forall lc st h,
      exists lines,
        Forall would_click_line lines /\
        trace_of (while_loop env cfg lc fuel st h) = h ++ lines).
Proof.
  intros Hdry. split.
  - unfold place_objects, bind. now rewrite setup_dry.
  - intros lc st h.
    destruct (while_loop_dry_lines cfg lc Hdry env fuel st h)
      as (lines & Hall & Htr & _).
    exists lines. now split.
Qed.

Lemma dry_run_raises_attribute_error_witness :
  place_objects (uniform_screen (Some true))
    (configure (Some 1080) (Some 3) (Some (300, 200)) None true true) 3 []
  = Raise AttributeError [].
Proof.
  exact (proj1 (dry_run_raises_attribute_error (uniform_screen (Some true))
                  (configure (Some 1080) (Some 3) (Some (300, 200)) None true true) 3
                  eq_refl)).
Defined.

(** ** What the function returns *)

Section ReturnFacts.
Variable env : Env.
Variable cfg : PlacementConfig.
Variable lc : locals.

(** The loop is left only through a false loop condition, and the function
    then returns [None]. *)
Lemma while_loop_returned fuel : forall st h v st' h',
  while_loop env cfg lc fuel st h = Ok (Returned v st') h' ->
  v = PyNone /\ loop_condition cfg st' = false.
Proof.
  induction fuel as [|fuel IH]; intros st h v st' h' H;
    rewrite while_loop_unfold in H;
    destruct (loop_condition cfg st) eqn:Hc; cbn [negb] in H;
    try discriminate H; try (inversion H; subst; split; [reflexivity|assumption]).
  destruct (loop_body env cfg lc st h) as [s1 h1|]; [|discriminate].
  eapply IH; eassumption.
Qed.

(** [placed] never passes the limit. *)
Lemma while_loop_placed_bound fuel st h o h' :
  0 <= placed st ->
  (forall L, limit cfg = Some L -> placed st <= Z.max 0 L) ->
  while_loop env cfg lc fuel st h = Ok o h' ->
  0 <= placed (state_of o) /\
  (forall L, limit cfg = Some L -> placed (state_of o) <= Z.max 0 L).
Proof.
  intros H0 HL H.
  apply (while_loop_preserves env cfg lc
           (fun s _ => 0 <= placed s /\
                       (forall L, limit cfg = Some L -> placed s <= Z.max 0 L)))
    in H; [exact H| |split; assumption].
  intros s hs s' hs' [Hs0 HsL] Hc Hb.
  destruct (loop_body_counts _ _ _ _ _ _ _ Hb) as (evs & _ & Hcases).
  unfold loop_condition in Hc.
  split; [destruct Hcases as [(?&_)|(?&_)]; lia|].
  intros L HlimL. rewrite HlimL in Hc. apply Z.ltb_lt in Hc.
  specialize (HsL L HlimL). destruct Hcases as [(?&_)|(?&_)]; lia.
Qed.
End ReturnFacts.

(** C8, counterexample.  A live run with [limit = 2], on a screen where
    every row shows the item colour, places two rows and returns [None], not
    2. *)
Lemma return_value_is_not_placed_count :
  exists st h,
    place_objects (uniform_screen (Some true))
      (configure (Some 1080) (Some 2) (Some (300, 200)) None true false) 2 []
    = Ok (Returned PyNone st) h /\
    placed st = 2 /\
    PyNone <> PyInt (placed st).
Proof.
  exists {| scroll_rows_consumed := 0; placed := 2; index := 2 |}.
  eexists. split; [vm_compute; reflexivity|]. split; [reflexivity|discriminate].
Qed.

(** C8, amended.  Whenever [place_objects] returns, it returns [None]; a
    limit is then configured, and the number of placements carried out, which
    the function keeps to itself, is that limit (or 0 for a negative one). *)
Theorem place_objects_returns_none env cfg fuel v st h :
  place_objects env cfg fuel [] = Ok (Returned v st) h ->
  v = PyNone /\
  exists L, limit cfg = Some L /\ placed st = Z.max 0 L.
Proof.
  unfold place_objects, bind. intros H.
  destruct (setup env cfg []) as [lc h0|]; [|discriminate].
  destruct (while_loop_returned env cfg lc _ _ _ _ _ _ H) as [Hv Hc].
  split; [exact Hv|].
  destruct (while_loop_placed_bound env cfg lc fuel initial_state h0 _ h
              (Z.le_refl 0) (fun L _ => Z.le_max_l 0 L) H) as [H0 HL].
  simpl in H0, HL. unfold loop_condition in Hc.
  destruct (limit cfg) as [L|]; [|discriminate].
  exists L. split; [reflexivity|]. apply Z.ltb_ge in Hc.
  specialize (HL L eq_refl). lia.
Qed.

Lemma place_objects_returns_none_witness :
  PyNone = PyNone /\
  exists L,
    limit (configure (Some 1080) (Some 2) (Some (300, 200)) None true false) = Some L /\
    placed {| scroll_rows_consumed := 0; placed := 2; index := 2 |} = Z.max 0 L.
Proof.
  refine (place_objects_returns_none (uniform_screen (Some true))
            (configure (Some 1080) (Some 2) (Some (300, 200)) None true false) 2
            PyNone {| scroll_rows_consumed := 0; placed := 2; index := 2 |} _ _).
  vm_compute. reflexivity.
Defined.



(** * Beyond the claims: failures, edge cases and accounting *)

Lemma scroll_events_no_sample cfg lc st : count is_sample (scroll_events cfg lc st) = 0.
Proof.
  unfold scroll_events; cbv zeta.
  destruct (_ >=? _); simpl; [destruct (dry_run cfg)|]; reflexivity.
Qed.

Lemma scroll_events_no_move cfg lc st : count is_move (scroll_events cfg lc st) = 0.
Proof.
  unfold scroll_events; cbv zeta.
  destruct (_ >=? _); simpl; [destruct (dry_run cfg)|]; reflexivity.
Qed.

Lemma scroll_events_sleeps cfg lc st :
  count is_sleep (scroll_events cfg lc st) = count is_scroll (scroll_events cfg lc st).
Proof.
  unfold scroll_events; cbv zeta.
  destruct (_ >=? _); simpl; [destruct (dry_run cfg)|]; reflexivity.
Qed.

Ltac eqb_props :=
  repeat match goal with
         | E : (_ =? _) = true |- _ => apply Z.eqb_eq in E
         | E : (_ =? _) = false |- _ => apply Z.eqb_neq in E
         | E : negb _ = true |- _ => apply negb_true_iff in E
         | E : negb _ = false |- _ => apply negb_false_iff in E
         end.

Lemma loop_body_events env cfg lc st h :
  exists evs,
    trace_of (loop_body env cfg lc st h) = h ++ scroll_events cfg lc st ++ evs /\
    count is_scroll evs = 0 /\
    count is_sleep evs = count is_click evs /\
    count is_move evs = count is_click evs /\
    (dry_run cfg = true -> count is_sample evs = 0) /\
    (category_color cfg = None ->
     require_item_color cfg = false \/ item_color cfg = None ->
     count is_sample evs = 0) /\
    (dry_run cfg = false ->
     require_item_color cfg = false \/ item_color cfg = None ->
     count is_print evs = 0) /\
    match loop_body env cfg lc st h with
    | Ok st' _ =>
        index st' = index st + 1 /\
        ((placed st' = placed st /\ count is_click evs = 0 /\ dry_run cfg = false /\
          (category_color cfg <> None \/
           (require_item_color cfg = true /\ item_color cfg <> None))) \/
         (placed st' = placed st + 1 /\ per_row cfg <> 0 /\
          count is_click evs = (if dry_run cfg then 0 else 2) /\
          count is_print evs = (if dry_run cfg then 1 else 0)))
    | Raise e _ =>
        e = ZeroDivisionError /\ per_row cfg = 0 /\
        count is_click evs = 0 /\ count is_print evs = 0
    end.
Proof.
  destruct (loop_body env cfg lc st h) as [st' h'|e t] eqn:H;
    unfold loop_body in H; unfold bind at 1 in H;
    rewrite scroll_into_view_eq in H; cbv zeta in H;
    destruct (index st - scroll_rows_consumed st >=? visible_rows lc);
    unfold_py; destruct (dry_run cfg) eqn:Edry; simpl in H.
  all: repeat match type of H with
         | context [match ?x with _ => _ end] =>
             lazymatch x with
             | context [match _ with _ => _ end] => fail
             | _ => let E := fresh "E" in
                    destruct x eqn:E; simpl in H
             end
         end.
  all: try discriminate H.
  all: inversion H; subst; clear H; eqb_props.
  all: first
         [ eexists; cbn [trace_of]; rewrite <- ?app_assoc; simpl;
           (split; [reflexivity|])
         | exists []; cbn [trace_of]; rewrite ?app_nil_r;
           (split; [reflexivity|]) ].
  all: repeat (split; [first [reflexivity | assumption
                              | intros; first [reflexivity | discriminate | intuition congruence]]|]).
  all: try (first [ left; repeat split; first [reflexivity | assumption | left; congruence | right; split; congruence]
                  | right; repeat split; first [reflexivity | assumption] ]).
  all: try (repeat split; first [reflexivity | assumption]).
Qed.

(** Whatever every iteration keeps true of the trace, also when it raises,
    holds of the trace of the loop. *)
Lemma while_loop_trace_preserves env cfg lc (Q : trace -> Prop) :
  (forall st h, Q h -> Q (trace_of (loop_body env cfg lc st h))) ->
  forall fuel st h, Q h -> Q (trace_of (while_loop env cfg lc fuel st h)).
Proof.
  intros Hstep. induction fuel as [|fuel IH]; intros st h HQ;
    rewrite while_loop_unfold; destruct (loop_condition cfg st); cbn [negb];
    try exact HQ.
  specialize (Hstep st h HQ).
  destruct (loop_body env cfg lc st h) as [st1 h1|e t]; cbn [trace_of] in *.
  - now apply IH.
  - exact Hstep.
Qed.

(** The loop raises nothing but the [ZeroDivisionError] of [per_row = 0]. *)
Lemma while_loop_raises env cfg lc fuel : forall st h e t,
  while_loop env cfg lc fuel st h = Raise e t ->
  e = ZeroDivisionError /\ per_row cfg = 0.
Proof.
  induction fuel as [|fuel IH]; intros st h e t H;
    rewrite while_loop_unfold in H; destruct (loop_condition cfg st);
    cbn [negb] in H; try discriminate H.
  destruct (loop_body_events env cfg lc st h) as (evs & _ & _ & _ & _ & _ & _ & _ & Hres).
  destruct (loop_body env cfg lc st h) as [st1 h1|e1 t1].
  - eapply IH; eassumption.
  - inversion H; subst. tauto.
Qed.

(** The events a trace must not hold for nothing to have happened on
    screen. *)
Definition no_screen_action (t : trace) : Prop :=
  count is_sample t = 0 /\ count is_move t = 0 /\ count is_click t = 0 /\
  count is_scroll t = 0 /\ count is_sleep t = 0 /\ count is_print t = 0.

(** How the set-up can fail: in a dry run at line 138; in a live run for
    want of the anchor, or, with the anchor found, on a zero [row_height]. *)
Lemma setup_raises env cfg e t :
  setup env cfg [] = Raise e t ->
  no_screen_action t /\
  ((exists msg, e = RuntimeError msg) /\ dry_run cfg = false /\
   (template_exists env = false \/ locateOnScreen env = None)
   \/
   e = ZeroDivisionError /\ row_height cfg = 0 /\ dry_run cfg = false /\
   template_exists env = true /\ (exists box, locateOnScreen env = Some box)
   \/
   e = AttributeError /\ dry_run cfg = true /\ t = []).
Proof.
  intros H. unfold no_screen_action. unfold_setup. cbv beta iota zeta in H.
  repeat match type of H with
         | context [match ?x with _ => _ end] =>
             lazymatch x with
             | context [match _ with _ => _ end] => fail
             | _ => let E := fresh "E" in
                    destruct x eqn:E; cbv beta iota zeta delta [negb] in H
             end
         end.
  all: try discriminate H.
  all: inversion H; subst; clear H; eqb_props.
  all: (split; [repeat split; reflexivity|]).
  all: first [ left; split; [eexists; reflexivity|]; split; [reflexivity|];
               first [left; reflexivity | right; reflexivity]
             | right; left; split; [reflexivity|]; split; [assumption|];
               split; [reflexivity|]; split; [reflexivity|eexists; reflexivity]
             | right; right; repeat split; reflexivity ].
Qed.

(** A live run whose anchor cannot be settled. *)
Lemma place_objects_anchor_failure env cfg fuel :
  dry_run cfg = false ->
  template_exists env = false \/ locateOnScreen env = None ->
  place_objects env cfg fuel [] =
  if template_exists env then
    Raise (RuntimeError
             ("Could not find anchor on screen. Make sure the 3DEN object browser "
              ++ "is visible and matches the template screenshot.")%string)
          [EExists (anchor_template cfg) true;
           ELocate (anchor_template cfg) (confidence cfg) None]
  else
    Raise (RuntimeError ("anchor template not found: " ++ anchor_template cfg)%string)
          [EExists (anchor_template cfg) false].
Proof.
  intros Hdry Hfail. unfold place_objects. unfold bind at 1. unfold_setup.
  rewrite Hdry. cbv beta iota zeta. cbn [app].
  destruct (template_exists env); cbn [negb].
  - destruct Hfail as [Hf|Hf]; [discriminate|]. rewrite Hf. reflexivity.
  - reflexivity.
Qed.

(** X1.  In a live run, when the anchor template file is missing or the
    anchor is not found on screen, [place_objects] raises [RuntimeError]
    before anything else happens: nothing is sampled, moved, clicked or
    scrolled, and a missing file means the screen is not even searched. *)
Theorem anchor_failure_aborts env cfg fuel :
  dry_run cfg = false ->
  template_exists env = false \/ locateOnScreen env = None ->
  place_objects env cfg fuel [] =
  if template_exists env then
    Raise (RuntimeError
             ("Could not find anchor on screen. Make sure the 3DEN object browser "
              ++ "is visible and matches the template screenshot.")%string)
          [EExists (anchor_template cfg) true;
           ELocate (anchor_template cfg) (confidence cfg) None]
  else
    Raise (RuntimeError ("anchor template not found: " ++ anchor_template cfg)%string)
          [EExists (anchor_template cfg) false].
Proof. exact (place_objects_anchor_failure env cfg fuel). Qed.

Lemma anchor_failure_aborts_witness :
  place_objects
    {| template_exists := false; locateOnScreen := None; position := (0, 0);
       size_height := None; pixelMatchesColor := fun _ _ _ _ _ => None |}
    live_1080_config 7 []
  = Raise (RuntimeError "anchor template not found: anchor.png")
      [EExists "anchor.png" false].
Proof.
  exact (anchor_failure_aborts
           {| template_exists := false; locateOnScreen := None; position := (0, 0);
              size_height := None; pixelMatchesColor := fun _ _ _ _ _ => None |}
           live_1080_config 7 eq_refl (or_introl eq_refl)).
Defined.




(** X5.  Without a limit the loop condition is always true:
    [place_objects] never returns, however many iterations it is given. *)
Theorem no_limit_never_returns env cfg fuel v st h :
  limit cfg = None ->
  place_objects env cfg fuel [] <> Ok (Returned v st) h.
Proof.
  intros Hlim H. unfold place_objects, bind in H.
  destruct (setup env cfg []) as [lc h0|]; [|discriminate].
  apply while_loop_returned in H. destruct H as [_ Hc].
  unfold loop_condition in Hc. rewrite Hlim in Hc. discriminate.
Qed.

Lemma no_limit_never_returns_witness :
  place_objects (uniform_screen (Some true)) live_1080_config 2 []
  <> Ok (Returned PyNone {| scroll_rows_consumed := 0; placed := 2; index := 2 |}) [].
Proof.
  exact (no_limit_never_returns (uniform_screen (Some true)) live_1080_config 2
           PyNone {| scroll_rows_consumed := 0; placed := 2; index := 2 |} []
           eq_refl).
Defined.

(** X6.  With a limit of zero or less, a run whose set-up succeeds returns
    at once: no row is looked at, nothing is added to the trace of the
    set-up, and that without any iteration being allowed. *)
Theorem nonpositive_limit_places_nothing env cfg fuel L lc h0 :
  limit cfg = Some L ->
  L <= 0 ->
  setup env cfg [] = Ok lc h0 ->
  place_objects env cfg fuel [] = Ok (Returned PyNone initial_state) h0 /\
  no_screen_action h0.
Proof.
  intros Hlim HL Hs. split.
  - unfold place_objects, bind. rewrite Hs, while_loop_unfold.
    unfold loop_condition. rewrite Hlim. cbn [placed initial_state].
    replace (0 <? L) with false by (symmetry; apply Z.ltb_ge; lia).
    reflexivity.
  - apply setup_ok in Hs.
    destruct Hs as (_ & _ & _ & _ & _ & evs & Hh & H1 & H2 & H3 & H4 & H5 & H6 & _).
    simpl in Hh. subst h0. unfold no_screen_action. tauto.
Qed.

Lemma nonpositive_limit_places_nothing_witness :
  place_objects (uniform_screen (Some true))
    (configure (Some 1080) (Some (-2)) (Some (300, 200)) None true false) 9 []
  = Ok (Returned PyNone initial_state) live_1080_setup_trace.
Proof.
  refine (proj1 (nonpositive_limit_places_nothing (uniform_screen (Some true))
           (configure (Some 1080) (Some (-2)) (Some (300, 200)) None true false) 9 (-2)
           live_1080_locals live_1080_setup_trace eq_refl _ eq_refl)).
  lia.
Defined.

(** The set-up itself does nothing on screen, whether it succeeds or not. *)
Lemma setup_trace_quiet env cfg : no_screen_action (trace_of (setup env cfg [])).
Proof.
  destruct (setup env cfg []) as [lc h0|e t] eqn:Hs; cbn [trace_of].
  - apply setup_ok in Hs.
    destruct Hs as (_ & _ & _ & _ & _ & evs & Hh & H1 & H2 & H3 & H4 & H5 & H6 & _).
    simpl in Hh. subst h0. unfold no_screen_action. tauto.
  - now destruct (setup_raises _ _ _ _ Hs).
Qed.

(** What holds of the trace of the set-up and is kept by every iteration
    holds of the trace of the whole function. *)
Lemma place_objects_trace_preserves env cfg (Q : trace -> Prop) :
  Q (trace_of (setup env cfg [])) ->
  (forall lc st h, Q h -> Q (trace_of (loop_body env cfg lc st h))) ->
  forall fuel, Q (trace_of (place_objects env cfg fuel [])).
Proof.
  intros Hsetup Hstep fuel. unfold place_objects, bind.
  destruct (setup env cfg []) as [lc h0|e t]; cbn [trace_of] in *.
  - apply while_loop_trace_preserves; [apply Hstep|exact Hsetup].
  - exact Hsetup.
Qed.

(** What holds of the locals after the set-up and is kept by every
    completed iteration holds wherever the function is observed. *)
Lemma place_objects_preserves env cfg (P : locals -> loop_state -> trace -> Prop) :
  (forall lc h0, setup env cfg [] = Ok lc h0 -> P lc initial_state h0) ->
  (forall lc st h st' h',
      P lc st h -> loop_body env cfg lc st h = Ok st' h' -> P lc st' h') ->
  forall fuel o h,
    place_objects env cfg fuel [] = Ok o h ->
    exists lc, P lc (state_of o) h.
Proof.
  intros Hinit Hstep fuel o h H. unfold place_objects, bind in H.
  destruct (setup env cfg []) as [lc h0|] eqn:Hs; [|discriminate].
  exists lc.
  apply (while_loop_preserves env cfg lc (P lc)) in H; [exact H| |now apply Hinit].
  intros st hs st' hs' HP _ Hb. eapply Hstep; eassumption.
Qed.

(** X4.  With [per_row = 0] no row is ever placed: a row that classifies as
    valid makes the iteration raise [ZeroDivisionError] right after its
    samples, before the pointer moves; so a run never moves the pointer,
    never clicks, and [placed] stays 0, however the rows classify. *)
Theorem zero_per_row_never_places env cfg fuel :
  per_row cfg = 0 ->
  count is_click (trace_of (place_objects env cfg fuel [])) = 0 /\
  count is_move (trace_of (place_objects env cfg fuel [])) = 0 /\
  (forall o h, place_objects env cfg fuel [] = Ok o h -> placed (state_of o) = 0) /\
  (forall lc st h c riv hs hc,
      scroll_into_view cfg lc st h = Ok (c, riv) hs ->
      classify env cfg (list_start_x lc, list_start_y lc + riv * row_height cfg) hs
      = Ok Valid hc ->
      loop_body env cfg lc st h = Raise ZeroDivisionError hc).
Proof.
  intros Hper.
  assert (Htrace : count is_click (trace_of (place_objects env cfg fuel [])) = 0 /\
                   count is_move (trace_of (place_objects env cfg fuel [])) = 0).
  { apply (place_objects_trace_preserves env cfg
             (fun t => count is_click t = 0 /\ count is_move t = 0)).
    - destruct (setup_trace_quiet env cfg) as (_ & Hm & Hc & _). now split.
    - intros lc st h [Hc Hm].
      destruct (loop_body_events env cfg lc st h)
        as (evs & Ht & _ & _ & Hmv & _ & _ & _ & Hres).
      rewrite Ht, !count_app, Hc, Hm, scroll_events_no_click, scroll_events_no_move, Hmv.
      assert (Hz : count is_click evs = 0).
      { destruct (loop_body env cfg lc st h).
        - destruct Hres as (_ & [(_ & Hz & _)|(_ & Hne & _)]); [exact Hz|contradiction].
        - tauto. }
      rewrite Hz. now split. }
  split; [apply Htrace|]. split; [apply Htrace|]. split.
  - intros o h H.
    destruct (place_objects_preserves env cfg (fun _ st _ => placed st = 0)) with
      (fuel := fuel) (o := o) (h := h) as [_ Hp]; try assumption.
    + reflexivity.
    + intros lc st hs st' hs' Hp Hb.
      destruct (loop_body_events env cfg lc st hs) as (evs & _ & _ & _ & _ & _ & _ & _ & Hres).
      rewrite Hb in Hres.
      destruct Hres as (_ & [(Heq & _)|(_ & Hne & _)]); [congruence|contradiction].
  - intros lc st h c riv hs hc Hs Hc.
    rewrite (loop_body_by_class env cfg lc st h c riv hs Hs), Hc.
    now rewrite world_pos_zero.
Qed.

(** The defaults with [per_row = 0], live, with a limit of 3. *)
Definition zero_per_row_config : PlacementConfig :=
  {| anchor_template := "anchor.png"; row_height := 26; list_offset_x := 10;
     list_offset_y := 40; screen_height := Some 1080; spacing_pixels := 120;
     per_row := 0; click_delay := 5 # 100; place_delay := 1 # 10;
     scroll_clicks_per_row := 3; scroll_delay := 15 # 100; limit := Some 3;
     confidence := 9 # 10; placement_origin := Some (300, 200);
     category_color := None; category_color_tolerance := 8;
     category_icon_offset_x := -14; item_color := Some (142, 125, 18);
     item_color_tolerance := 10; item_color_offset_x := 26;
     item_color_offset_y := 12; require_item_color := true;
     dry_run := false |}.

Lemma zero_per_row_never_places_witness :
  count is_click
    (trace_of (place_objects (uniform_screen (Some true)) zero_per_row_config 5 [])) = 0.
Proof.
  exact (proj1 (zero_per_row_never_places (uniform_screen (Some true))
                  zero_per_row_config 5 eq_refl)).
Defined.

(** X7.  In a live run with the item-colour check switched off
    ([require_item_color] false, or no [item_color]), no row is ever reported
    as skipped: the run prints nothing. *)
Theorem no_item_check_no_diagnostic env cfg fuel :
  dry_run cfg = false ->
  require_item_color cfg = false \/ item_color cfg = None ->
  count is_print (trace_of (place_objects env cfg fuel [])) = 0.
Proof.
  intros Hlive Hoff.
  apply (place_objects_trace_preserves env cfg (fun t => count is_print t = 0)).
  - now destruct (setup_trace_quiet env cfg) as (_ & _ & _ & _ & _ & Hp).
  - intros lc st h Hp.
    destruct (loop_body_events env cfg lc st h)
      as (evs & Ht & _ & _ & _ & _ & _ & Hprint & _).
    rewrite Ht, !count_app, Hp, scroll_events_no_print, (Hprint Hlive Hoff).
    reflexivity.
Qed.

Lemma no_item_check_no_diagnostic_witness :
  count is_print
    (trace_of (place_objects (uniform_screen None)
                 (configure (Some 1080) (Some 2) (Some (300, 200)) None false false) 4 []))
  = 0.
Proof.
  exact (no_item_check_no_diagnostic (uniform_screen None)
           (configure (Some 1080) (Some 2) (Some (300, 200)) None false false) 4
           eq_refl (or_introl eq_refl)).
Defined.

(** X8.  With no category colour configured and the item-colour check
    switched off, a run samples no pixel at all, and every row it gets to is
    placed: wherever the run is observed, [placed] equals the index. *)
Theorem no_colour_checks_every_row_placed env cfg fuel :
  category_color cfg = None ->
  require_item_color cfg = false \/ item_color cfg = None ->
  count is_sample (trace_of (place_objects env cfg fuel [])) = 0 /\
  (forall o h, place_objects env cfg fuel [] = Ok o h ->
               placed (state_of o) = index (state_of o)).
Proof.
  intros Hcat Hoff. split.
  - apply (place_objects_trace_preserves env cfg (fun t => count is_sample t = 0)).
    + now destruct (setup_trace_quiet env cfg) as (Hs & _).
    + intros lc st h Hs.
      destruct (loop_body_events env cfg lc st h)
        as (evs & Ht & _ & _ & _ & _ & Hsample & _).
      rewrite Ht, !count_app, Hs, scroll_events_no_sample, (Hsample Hcat Hoff).
      reflexivity.
  - intros o h H.
    destruct (place_objects_preserves env cfg (fun _ st _ => placed st = index st)) with
      (fuel := fuel) (o := o) (h := h) as [_ Hp]; try assumption.
    + reflexivity.
    + intros lc st hs st' hs' Hp Hb.
      destruct (loop_body_events env cfg lc st hs) as (evs & _ & _ & _ & _ & _ & _ & _ & Hres).
      rewrite Hb in Hres.
      destruct Hres as (Hidx & [(_ & _ & _ & Hwhy)|(Hpl & _)]); [|lia].
      exfalso. destruct Hwhy as [Hc|[Hr Hi]]; [congruence|].
      destruct Hoff; congruence.
Qed.

Lemma no_colour_checks_every_row_placed_witness :
  count is_sample
    (trace_of (place_objects (uniform_screen None)
                 (configure (Some 1080) (Some 2) (Some (300, 200)) None false false) 4 []))
  = 0.
Proof.
  exact (proj1 (no_colour_checks_every_row_placed (uniform_screen None)
                  (configure (Some 1080) (Some 2) (Some (300, 200)) None false false) 4
                  eq_refl (or_introl eq_refl))).
Defined.

(** The books a run keeps: [placed] against the index and the limit, and the
    clicks, moves, pauses and printed lines of the trace against [placed]. *)
Lemma run_accounting env cfg fuel o h :
  place_objects env cfg fuel [] = Ok o h ->
  0 <= placed (state_of o) <= index (state_of o) /\
  (forall L, limit cfg = Some L -> placed (state_of o) <= Z.max 0 L) /\
  count is_sleep h = count is_click h + count is_scroll h /\
  count is_move h = count is_click h /\
  (dry_run cfg = false -> count is_click h = 2 * placed (state_of o)) /\
  (dry_run cfg = true ->
   count is_click h = 0 /\
   count is_print h = placed (state_of o) /\
   placed (state_of o) = index (state_of o)).
Proof.
  intros H. unfold place_objects, bind in H.
  destruct (setup env cfg []) as [lc h0|] eqn:Hs; [|discriminate].
  apply (while_loop_preserves env cfg lc
    (fun st t =>
       0 <= placed st <= index st /\
       (forall L, limit cfg = Some L -> placed st <= Z.max 0 L) /\
       count is_sleep t = count is_click t + count is_scroll t /\
       count is_move t = count is_click t /\
       (dry_run cfg = false -> count is_click t = 2 * placed st) /\
       (dry_run cfg = true ->
        count is_click t = 0 /\ count is_print t = placed st /\
        placed st = index st))) in H; [exact H| |].
  - intros st t st' t' (Hpi & Hlim & Hsl & Hmv & Hlive & Hdry) Hcond Hb.
    destruct (loop_body_events env cfg lc st t)
      as (evs & Ht & Hsc & Hsl' & Hmv' & _ & _ & _ & Hres).
    rewrite Hb in Ht, Hres. cbn [trace_of] in Ht. subst t'.
    rewrite !count_app, scroll_events_sleeps, scroll_events_no_click,
      scroll_events_no_move, scroll_events_no_print, Hsc, Hsl', Hmv'.
    assert (Hbound : forall L, limit cfg = Some L -> placed st + 1 <= Z.max 0 L).
    { intros L HL. unfold loop_condition in Hcond. rewrite HL in Hcond.
      apply Z.ltb_lt in Hcond. lia. }
    destruct Hres as (Hidx & [(Hpl & Hc & Hd & _)|(Hpl & _ & Hc & Hp)]).
    + rewrite Hc, Hpl. split; [lia|]. split; [exact Hlim|].
      split; [lia|]. split; [lia|].
      split; [intros Hl; specialize (Hlive Hl); lia|congruence].
    + rewrite Hc, Hp, Hpl. split; [lia|]. split; [exact Hbound|].
      split; [lia|]. split; [lia|].
      split; intros Hm; rewrite Hm.
      * specialize (Hlive Hm). lia.
      * destruct (Hdry Hm) as (Hc0 & Hp0 & He). lia.
  - apply setup_ok in Hs.
    destruct Hs as (_ & _ & _ & _ & _ & evs & Hh & H1 & H2 & H3 & H4 & H5 & H6 & _).
    simpl in Hh. subst h0. rewrite H1, H2, H3, H4, H6. simpl.
    split; [lia|]. split; [intros; lia|]. split; [lia|]. split; [lia|].
    split; intros _; repeat split; lia.
Qed.

(** X9.  A live iteration on a valid row does, after the samples and in
    this order: move to the row, click, pause for [click_delay], move to the
    grid position, click, pause for [place_delay]; a live scroll is one
    scroll command and then a pause for [scroll_delay].  Hence, wherever a
    run is observed: [0 <= placed <= index]; there are as many pauses as
    clicks and scroll commands together, and as many moves as clicks; a live
    run has clicked exactly twice per placement; a dry run has clicked
    nothing, printed one line per placement and placed every row. *)
Theorem placement_accounting env cfg fuel o h :
  place_objects env cfg fuel [] = Ok o h ->
  0 <= placed (state_of o) <= index (state_of o) /\
  count is_sleep h = count is_click h + count is_scroll h /\
  count is_move h = count is_click h /\
  (dry_run cfg = false -> count is_click h = 2 * placed (state_of o)) /\
  (dry_run cfg = true ->
   count is_click h = 0 /\
   count is_print h = placed (state_of o) /\
   placed (state_of o) = index (state_of o)) /\
  (forall lc st t c riv hs hc,
      dry_run cfg = false ->
      per_row cfg <> 0 ->
      scroll_into_view cfg lc st t = Ok (c, riv) hs ->
      classify env cfg (list_start_x lc, list_start_y lc + riv * row_height cfg) hs
      = Ok Valid hc ->
      loop_body env cfg lc st t =
      Ok {| scroll_rows_consumed := c; placed := placed st + 1; index := index st + 1 |}
         (hc ++ [EMoveTo (list_start_x lc) (list_start_y lc + riv * row_height cfg);
                 EClick;
                 ESleep (click_delay cfg);
                 EMoveTo (fst (resolved_origin lc)
                          + (placed st mod per_row cfg) * spacing_pixels cfg)
                   (snd (resolved_origin lc)
                    + (placed st / per_row cfg) * spacing_pixels cfg);
                 EClick;
                 ESleep (place_delay cfg)])) /\
  (forall lc st t,
      dry_run cfg = false ->
      index st - scroll_rows_consumed st >= visible_rows lc ->
      exists c riv amount,
        scroll_into_view cfg lc st t =
        Ok (c, riv)
           (t ++ [EScroll amount (list_start_x lc) (list_start_y lc);
                  ESleep (scroll_delay cfg)])).
Proof.
  intros H. destruct (run_accounting env cfg fuel o h H) as (H1 & _ & H3 & H4 & H5 & H6).
  do 5 (split; [assumption|]). split.
  - intros lc st t c riv hs hc Hlive Hper Hs Hc.
    rewrite (loop_body_by_class env cfg lc st t c riv hs Hs), Hc.
    rewrite world_pos_ok by exact Hper.
    unfold placement_events. rewrite Hlive. reflexivity.
  - intros lc st t Hlive Hge.
    rewrite scroll_into_view_eq. unfold scroll_events. cbv zeta.
    replace (index st - scroll_rows_consumed st >=? visible_rows lc) with true
      by (symmetry; apply Z.geb_le; lia).
    rewrite Hlive. do 3 eexists. reflexivity.
Qed.

Lemma placement_accounting_witness :
  count is_click alternating_trace_4
  = 2 * placed {| scroll_rows_consumed := 0; placed := 2; index := 4 |}.
Proof.
  refine (proj1 (proj2 (proj2 (proj2
    (placement_accounting alternating_screen alternating_config 4
       (Returned PyNone {| scroll_rows_consumed := 0; placed := 2; index := 4 |})
       alternating_trace_4 _)))) eq_refl).
  vm_compute. reflexivity.
Defined.

(** X10.  Wherever a run is observed, the list has been scrolled by one row
    for every row beyond the visible window and not at all before that:
    [scroll_rows_consumed = max(0, index - visible_rows)], which in a live run
    is also the number of scroll commands issued; and the row the iteration
    works on is read at slot [min(index, visible_rows - 1)] of the window. *)
Theorem scroll_closed_form env cfg fuel lc h0 o h :
  setup env cfg [] = Ok lc h0 ->
  while_loop env cfg lc fuel initial_state h0 = Ok o h ->
  scroll_rows_consumed (state_of o) = Z.max 0 (index (state_of o) - visible_rows lc) /\
  (dry_run cfg = false ->
   count is_scroll h = Z.max 0 (index (state_of o) - visible_rows lc)) /\
  (dry_run cfg = true -> count is_scroll h = 0) /\
  exists c h1,
    scroll_into_view cfg lc (state_of o) h
    = Ok (c, Z.min (index (state_of o)) (visible_rows lc - 1)) h1.
Proof.
  intros Hs Hrun.
  pose proof (setup_visible_rows _ _ _ _ _ Hs) as Hv.
  pose proof (setup_scroll_inv _ _ _ _ Hs) as Hinit.
  pose proof (while_loop_scroll_inv env cfg lc Hv _ _ _ _ _ Hinit Hrun) as Hinv.
  destruct Hinv as (Hi & Hc & _ & Hlive & Hdry).
  split; [exact Hc|]. split; [intros Hl; rewrite (Hlive Hl); exact Hc|].
  split; [exact Hdry|].
  rewrite scroll_into_view_eq. cbv zeta.
  destruct (index (state_of o) - scroll_rows_consumed (state_of o)
            >=? visible_rows lc) eqn:E; do 2 eexists; f_equal; f_equal.
  - apply Z.geb_le in E. lia.
  - rewrite Z.geb_leb in E. apply Z.leb_gt in E. lia.
Qed.

Lemma scroll_closed_form_witness :
  exists c h1,
    scroll_into_view live_1080_config live_1080_locals
      {| scroll_rows_consumed := 0; placed := 40; index := 40 |} live_1080_trace_40
    = Ok (c, Z.min 40 (40 - 1)) h1.
Proof.
  refine (proj2 (proj2 (proj2
    (scroll_closed_form (uniform_screen (Some true)) live_1080_config 40
       live_1080_locals live_1080_setup_trace
       (Running {| scroll_rows_consumed := 0; placed := 40; index := 40 |})
       live_1080_trace_40 eq_refl _)))).
  vm_compute. reflexivity.
Defined.

(** ** A live run with the colour checks off *)

(** With no category colour and the item check off, every row is valid
    and nothing is sampled. *)
Lemma classify_unchecked env cfg list_pos h :
  category_color cfg = None ->
  require_item_color cfg = false \/ item_color cfg = None ->
  classify env cfg list_pos h = Ok Valid h.
Proof.
  intros Hcat Hoff. unfold classify.
  destruct (dry_run cfg); cbv beta iota zeta delta [bind ret negb]; [reflexivity|].
  rewrite is_category_row_eq, Hcat, row_has_item_color_eq.
  destruct Hoff as [Hreq|Hitem].
  - rewrite Hreq. destruct (item_color cfg); reflexivity.
  - rewrite Hitem. reflexivity.
Qed.

Lemma scroll_into_view_offset cfg lc st h :
  scroll_into_view cfg lc st h =
  Ok (offset_after_scroll lc st, index st - offset_after_scroll lc st)
     (h ++ scroll_events cfg lc st).
Proof.
  rewrite scroll_into_view_eq. unfold offset_after_scroll. cbv zeta.
  destruct (index st - scroll_rows_consumed st >=? visible_rows lc); reflexivity.
Qed.

(** What a live run does for row [k] when every row is placed: one scroll
    and its pause once the window is full, then move to the row (at slot
    [min(k, visible_rows - 1)]), click, pause, move to grid cell
    [(k mod per_row, k div per_row)], click, pause. *)
Definition live_row_events (cfg : PlacementConfig) (lc : locals) (k : nat) : trace :=
  (if visible_rows lc <=? Z.of_nat k
   then [EScroll (- scroll_clicks_per_row cfg) (list_start_x lc) (list_start_y lc);
         ESleep (scroll_delay cfg)]
   else [])
  ++ [EMoveTo (list_start_x lc)
        (list_start_y lc + Z.min (Z.of_nat k) (visible_rows lc - 1) * row_height cfg);
      EClick;
      ESleep (click_delay cfg);
      EMoveTo (fst (resolved_origin lc)
               + (Z.of_nat k mod per_row cfg) * spacing_pixels cfg)
        (snd (resolved_origin lc) + (Z.of_nat k / per_row cfg) * spacing_pixels cfg);
      EClick;
      ESleep (place_delay cfg)].

Lemma while_loop_unchecked_rows env cfg lc :
  dry_run cfg = false ->
  category_color cfg = None ->
  require_item_color cfg = false \/ item_color cfg = None ->
  per_row cfg <> 0 ->
  1 <= visible_rows lc ->
  forall n k st h,
    index st = Z.of_nat k ->
    placed st = Z.of_nat k ->
    scroll_rows_consumed st = Z.max 0 (Z.of_nat k - visible_rows lc) ->
    (forall L, limit cfg = Some L -> Z.of_nat (k + n) <= L) ->
    exists o,
      while_loop env cfg lc n st h
      = Ok o (h ++ flat_map (live_row_events cfg lc) (seq k n)) /\
      placed (state_of o) = Z.of_nat (k + n) /\
      index (state_of o) = Z.of_nat (k + n).
Proof.
  intros Hlive Hcat Hoff Hper Hv.
  induction n as [|n IH]; intros k st h Hi Hp Hc Hlim.
  - rewrite while_loop_unfold. cbn [seq flat_map]. rewrite app_nil_r, Nat.add_0_r.
    destruct (loop_condition cfg st); cbn [negb]; eexists;
      (split; [reflexivity|]); cbn [state_of]; split; assumption.
  - rewrite while_loop_unfold.
    assert (Hcond : loop_condition cfg st = true).
    { unfold loop_condition. destruct (limit cfg) as [L|] eqn:HL; [|reflexivity].
      apply Z.ltb_lt. specialize (Hlim L eq_refl). lia. }
    rewrite Hcond. cbn [negb].
    rewrite (loop_body_by_class env cfg lc st h _ _ _
               (scroll_into_view_offset cfg lc st h)).
    rewrite classify_unchecked by assumption.
    rewrite world_pos_ok by assumption.
    assert (Hoffset : offset_after_scroll lc st
                      = Z.max 0 (Z.of_nat (S k) - visible_rows lc)).
    { unfold offset_after_scroll. rewrite Hi, Hc.
      destruct (Z.of_nat k - Z.max 0 (Z.of_nat k - visible_rows lc)
                >=? visible_rows lc) eqn:E;
        [apply Z.geb_le in E | rewrite Z.geb_leb in E; apply Z.leb_gt in E]; lia. }
    assert (Hevs : scroll_events cfg lc st ++
                   placement_events cfg
                     (list_start_x lc,
                      list_start_y lc
                      + (index st - offset_after_scroll lc st) * row_height cfg)
                     (fst (resolved_origin lc)
                      + (placed st mod per_row cfg) * spacing_pixels cfg,
                      snd (resolved_origin lc)
                      + (placed st / per_row cfg) * spacing_pixels cfg)
                   = live_row_events cfg lc k).
    { unfold live_row_events, placement_events, scroll_events. cbv zeta.
      rewrite Hlive, Hoffset, Hi, Hp, Hc. cbn [fst snd].
      destruct (visible_rows lc <=? Z.of_nat k) eqn:E;
        [apply Z.leb_le in E | apply Z.leb_gt in E].
      - replace (Z.of_nat k - Z.max 0 (Z.of_nat k - visible_rows lc)
                 >=? visible_rows lc) with true
          by (symmetry; apply Z.geb_le; lia).
        cbn [app].
        replace (Z.of_nat k - Z.max 0 (Z.of_nat k - visible_rows lc)
                 - visible_rows lc + 1) with 1 by lia.
        replace (- scroll_clicks_per_row cfg * 1)
          with (- scroll_clicks_per_row cfg) by lia.
        replace (Z.of_nat k - Z.max 0 (Z.of_nat (S k) - visible_rows lc))
          with (Z.min (Z.of_nat k) (visible_rows lc - 1)) by lia.
        reflexivity.
      - replace (Z.of_nat k - Z.max 0 (Z.of_nat k - visible_rows lc)
                 >=? visible_rows lc) with false
          by (symmetry; rewrite Z.geb_leb; apply Z.leb_gt; lia).
        cbn [app].
        replace (Z.of_nat k - Z.max 0 (Z.of_nat (S k) - visible_rows lc))
          with (Z.min (Z.of_nat k) (visible_rows lc - 1)) by lia.
        reflexivity. }
    destruct (IH (S k)
                {| scroll_rows_consumed := offset_after_scroll lc st;
                   placed := placed st + 1; index := index st + 1 |}
                ((h ++ scroll_events cfg lc st) ++
                 placement_events cfg
                   (list_start_x lc,
                    list_start_y lc
                    + (index st - offset_after_scroll lc st) * row_height cfg)
                   (fst (resolved_origin lc)
                    + (placed st mod per_row cfg) * spacing_pixels cfg,
                    snd (resolved_origin lc)
                    + (placed st / per_row cfg) * spacing_pixels cfg)))
      as (o & Hrun & Hpl & Hidx).
    + cbn [index]. lia.
    + cbn [placed]. lia.
    + cbn [scroll_rows_consumed]. exact Hoffset.
    + intros L HL. specialize (Hlim L HL). lia.
    + exists o. rewrite Hrun.
      replace (S k + n)%nat with (k + S n)%nat in * by lia.
      split; [|split; assumption].
      cbn [seq flat_map]. rewrite <- Hevs, <- !app_assoc. reflexivity.
Qed.

(** X11.  A live run with no category colour and the item check off, given
    [n] iterations with [n] within the limit, does exactly this after its
    set-up, in this order: for each row [0 .. n-1], one scroll by one row and
    its pause once the window is full, then move to the row, click, pause,
    move to the row's grid cell, click, pause.  It ends with
    [placed = index = n]. *)
Theorem unchecked_live_run_trace env cfg n lc h0 :
  dry_run cfg = false ->
  category_color cfg = None ->
  require_item_color cfg = false \/ item_color cfg = None ->
  per_row cfg <> 0 ->
  setup env cfg [] = Ok lc h0 ->
  (forall L, limit cfg = Some L -> Z.of_nat n <= L) ->
  exists o,
    place_objects env cfg n []
    = Ok o (h0 ++ flat_map (live_row_events cfg lc) (seq 0 n)) /\
    placed (state_of o) = Z.of_nat n /\
    index (state_of o) = Z.of_nat n.
Proof.
  intros Hlive Hcat Hoff Hper Hs Hlim.
  pose proof (setup_visible_rows _ _ _ _ _ Hs) as Hv.
  unfold place_objects, bind. rewrite Hs.
  apply (while_loop_unchecked_rows env cfg lc Hlive Hcat Hoff Hper Hv n O
           initial_state h0); try reflexivity.
  - cbn [scroll_rows_consumed initial_state Z.of_nat]. lia.
  - exact Hlim.
Qed.

(** The small-window run with the item check off, through three rows: the
    third row needs the one scroll. *)
Lemma unchecked_live_run_trace_witness :
  exists o,
    place_objects (uniform_screen None)
      (configure (Some 100) None (Some (300, 200)) None false false) 3 []
    = Ok o
        (live_setup_trace ++
         [EMoveTo 110 40; EClick; ESleep (5 # 100);
          EMoveTo 300 200; EClick; ESleep (1 # 10);
          EMoveTo 110 66; EClick; ESleep (5 # 100);
          EMoveTo 420 200; EClick; ESleep (1 # 10);
          EScroll (-3) 110 40; ESleep (15 # 100);
          EMoveTo 110 66; EClick; ESleep (5 # 100);
          EMoveTo 540 200; EClick; ESleep (1 # 10)]) /\
    placed (state_of o) = 3 /\ index (state_of o) = 3.
Proof.
  refine (unchecked_live_run_trace (uniform_screen None)
            (configure (Some 100) None (Some (300, 200)) None false false) 3
            small_window_locals live_setup_trace
            eq_refl eq_refl (or_introl eq_refl) _ eq_refl _).
  - discriminate.
  - intros L HL. discriminate HL.
Defined.

(** ** A screen height of zero *)

(** [cfg] with its [screen_height] replaced. *)
Definition with_screen_height (hgt : option Z) (cfg : PlacementConfig)
  : PlacementConfig :=
  {| anchor_template := anchor_template cfg;
     row_height := row_height cfg;
     list_offset_x := list_offset_x cfg;
     list_offset_y := list_offset_y cfg;
     screen_height := hgt;
     spacing_pixels := spacing_pixels cfg;
     per_row := per_row cfg;
     click_delay := click_delay cfg;
     place_delay := place_delay cfg;
     scroll_clicks_per_row := scroll_clicks_per_row cfg;
     scroll_delay := scroll_delay cfg;
     limit := limit cfg;
     confidence := confidence cfg;
     placement_origin := placement_origin cfg;
     category_color := category_color cfg;
     category_color_tolerance := category_color_tolerance cfg;
     category_icon_offset_x := category_icon_offset_x cfg;
     item_color := item_color cfg;
     item_color_tolerance := item_color_tolerance cfg;
     item_color_offset_x := item_color_offset_x cfg;
     item_color_offset_y := item_color_offset_y cfg;
     require_item_color := require_item_color cfg;
     dry_run := dry_run cfg |}.

(** The loop does not read [screen_height]. *)
Lemma while_loop_screen_height env cfg hgt lc fuel : forall st h,
  while_loop env (with_screen_height hgt cfg) lc fuel st h
  = while_loop env cfg lc fuel st h.
Proof.
  induction fuel as [|fuel IH]; intros st h; rewrite !while_loop_unfold.
  - reflexivity.
  - change (loop_condition (with_screen_height hgt cfg) st)
      with (loop_condition cfg st).
    change (loop_body env (with_screen_height hgt cfg) lc st h)
      with (loop_body env cfg lc st h).
    destruct (loop_condition cfg st); cbn [negb]; [|reflexivity].
    destruct (loop_body env cfg lc st h); [apply IH|reflexivity].
Qed.

(** X2.  A configured screen height of 0 counts as none: the run is, event
    for event, the run with no screen height configured, which reads the
    height off the screen and falls back to 1080. *)
Theorem zero_screen_height_is_unset env cfg fuel :
  screen_height cfg = Some 0 ->
  place_objects env cfg fuel [] =
  place_objects env (with_screen_height None cfg) fuel [].
Proof.
  intros Hz. unfold place_objects, bind.
  assert (Hsetup : setup env (with_screen_height None cfg) [] = setup env cfg []).
  { unfold setup. cbn [with_screen_height dry_run anchor_template confidence
                         list_offset_x list_offset_y placement_origin screen_height
                         row_height].
    rewrite Hz. reflexivity. }
  rewrite Hsetup. destruct (setup env cfg []) as [lc h0|]; [|reflexivity].
  symmetry. apply while_loop_screen_height.
Qed.

Lemma zero_screen_height_is_unset_witness :
  place_objects (uniform_screen (Some true))
    (configure (Some 0) (Some 2) (Some (300, 200)) None true false) 2 []
  = place_objects (uniform_screen (Some true))
      (with_screen_height None
         (configure (Some 0) (Some 2) (Some (300, 200)) None true false)) 2 [].
Proof.
  exact (zero_screen_height_is_unset (uniform_screen (Some true))
           (configure (Some 0) (Some 2) (Some (300, 200)) None true false) 2
           eq_refl).
Defined.

(** ** main *)

(** How [main] ends when the run is given [fuel] iterations: with an exit
    status, or with the loop still going. *)
Inductive main_result :=
| Exit (status : Z)
| StillRunning.

(** Lines 320-330, from the parsed configuration on.  A [KeyboardInterrupt]
    comes from outside the program and has no place in a run of the model;
    any exception other than [RuntimeError] leaves [main] uncaught. *)
Definition main (env : Env) (cfg : PlacementConfig) (fuel : nat) : M main_result :=
  fun h =>
    match place_objects env cfg fuel h with
    | Ok (Returned _ _) h' => Ok (Exit 0) h'
    | Ok (Running _) h' => Ok StillRunning h'
    | Raise (RuntimeError msg) h' =>
        (print ("ERROR: " ++ msg)%string ;; ret (Exit 1)) h'
    | Raise e h' => Raise e h'
    end.

(** What [place_objects] can raise, and when. *)
Lemma place_objects_raises env cfg fuel e t :
  place_objects env cfg fuel [] = Raise e t ->
  ((exists msg, e = RuntimeError msg) /\ no_screen_action t /\
   dry_run cfg = false /\
   (template_exists env = false \/ locateOnScreen env = None))
  \/
  (e = ZeroDivisionError /\ (row_height cfg = 0 \/ per_row cfg = 0))
  \/
  (e = AttributeError /\ dry_run cfg = true).
Proof.
  unfold place_objects, bind. intros H.
  destruct (setup env cfg []) as [lc h0|e0 t0] eqn:Hs.
  - right. left. apply while_loop_raises in H. tauto.
  - inversion H; subst.
    destruct (setup_raises _ _ _ _ Hs)
      as [Hq [(Hmsg & Hlive & Hf)|[(He & Hrh & _)|(He & Hd & _)]]].
    + left. tauto.
    + right. left. tauto.
    + right. right. tauto.
Qed.

(** X12.  [main] ends with status 1 exactly when the run is live and the
    anchor cannot be settled (template file missing, or anchor not found on
    screen); it has then printed the one "ERROR: ..." line and done nothing
    on screen. *)
Theorem main_exit_one_iff_anchor_failure env cfg fuel :
  ((exists t, main env cfg fuel [] = Ok (Exit 1) t) <->
   (dry_run cfg = false /\
    (template_exists env = false \/ locateOnScreen env = None))) /\
  (forall t, main env cfg fuel [] = Ok (Exit 1) t ->
             count is_print t = 1 /\ count is_click t = 0 /\ count is_move t = 0 /\
             count is_scroll t = 0 /\ count is_sample t = 0).
Proof.
  assert (Hone : forall t, main env cfg fuel [] = Ok (Exit 1) t ->
            exists msg t0,
              place_objects env cfg fuel [] = Raise (RuntimeError msg) t0 /\
              t = t0 ++ [EPrint ("ERROR: " ++ msg)%string]).
  { intros t H. unfold main in H.
    destruct (place_objects env cfg fuel []) as [[v st|st] h'|[msg| | |] h'];
      try discriminate H.
    unfold bind, print, emit, ret in H. inversion H; subst.
    do 2 eexists. split; reflexivity. }
  split; [split|].
  - intros [t H]. destruct (Hone t H) as (msg & t0 & Hp & _).
    destruct (place_objects_raises _ _ _ _ _ Hp)
      as [(_ & _ & Hl & Hf)|[(He & _)|(He & _)]];
      [tauto|discriminate|discriminate].
  - intros [Hl Hf]. unfold main.
    rewrite (place_objects_anchor_failure env cfg fuel Hl Hf).
    destruct (template_exists env); eexists; reflexivity.
  - intros t H. destruct (Hone t H) as (msg & t0 & Hp & Ht). subst t.
    destruct (place_objects_raises _ _ _ _ _ Hp)
      as [(_ & Hq & _)|[(He & _)|(He & _)]];
      [|discriminate|discriminate].
    destruct Hq as (H1 & H2 & H3 & H4 & H5 & H6).
    rewrite !count_app, H1, H2, H3, H4, H6. repeat split; reflexivity.
Qed.


(** X14.  Exit status 0 means the limit was reached: a limit is configured,
    and the run carried out exactly that many placements (none for a negative
    limit), two clicks each in a live run and one printed line each in a dry
    run. *)
Theorem main_exit_zero_means_limit_reached env cfg fuel t :
  main env cfg fuel [] = Ok (Exit 0) t ->
  exists L,
    limit cfg = Some L /\
    (dry_run cfg = false -> count is_click t = 2 * Z.max 0 L) /\
    (dry_run cfg = true -> count is_print t = Z.max 0 L /\ count is_click t = 0).
Proof.
  intros H. unfold main in H.
  destruct (place_objects env cfg fuel []) as [[v st|st] h'|[msg| | |] h'] eqn:Hp;
    try discriminate H.
  inversion H; subst.
  destruct (run_accounting env cfg fuel _ _ Hp) as (Hpi & Hlim & _ & _ & Hlive & Hdry).
  cbn [state_of] in *.
  unfold place_objects, bind in Hp.
  destruct (setup env cfg []) as [lc h0|]; [|discriminate].
  apply while_loop_returned in Hp. destruct Hp as [_ Hc].
  unfold loop_condition in Hc. destruct (limit cfg) as [L|]; [|discriminate].
  apply Z.ltb_ge in Hc. specialize (Hlim L eq_refl).
  assert (Hpl : placed st = Z.max 0 L) by lia.
  exists L. split; [reflexivity|]. rewrite <- Hpl. split.
  - exact Hlive.
  - intros Hd. destruct (Hdry Hd) as (Hc0 & Hp0 & _). now split.
Qed.

Lemma main_exit_zero_means_limit_reached_witness :
  exists L,
    limit alternating_config = Some L /\
    (dry_run alternating_config = false ->
     count is_click alternating_trace_4 = 2 * Z.max 0 L) /\
    (dry_run alternating_config = true ->
     count is_print alternating_trace_4 = Z.max 0 L /\
     count is_click alternating_trace_4 = 0).
Proof.
  refine (main_exit_zero_means_limit_reached alternating_screen alternating_config 4
            alternating_trace_4 _).
  vm_compute. reflexivity.
Defined.

(** ** parse_args *)

Module Args.

(** What [parser.parse_args(argv)] returns, one field per argument of lines
    202-290, typed as the parser's [type], [nargs] and [default] make it: an
    argument with [nargs=2] or [nargs=3] is two or three integers when it is
    given. *)
Record t := mk {
  anchor_template : string;
  row_height : Z;
  list_offset_x : Z;
  list_offset_y : Z;
  screen_height : option Z;
  spacing_pixels : Z;
  per_row : Z;
  limit : option Z;
  click_delay : Q;
  place_delay : Q;
  scroll_clicks_per_row : Z;
  scroll_delay : Q;
  confidence : Q;
  origin : option point;
  category_color : option rgb;
  category_tolerance : Z;
  category_offset_x : Z;
  item_color : rgb;
  item_color_tolerance : Z;
  item_offset_x : Z;
  item_offset_y : Z;
  allow_missing_item_color : bool;
  dry_run : bool
}.

End Args.

(** The namespace of a command line that gives the anchor template and
    nothing else: every [default] of lines 202-290. *)
Definition argparse_defaults (template : string) : Args.t :=
  {| Args.anchor_template := template;
     Args.row_height := 26;
     Args.list_offset_x := 10;
     Args.list_offset_y := 40;
     Args.screen_height := None;
     Args.spacing_pixels := 120;
     Args.per_row := 15;
     Args.limit := None;
     Args.click_delay := (5 # 100)%Q;
     Args.place_delay := (1 # 10)%Q;
     Args.scroll_clicks_per_row := 3;
     Args.scroll_delay := (15 # 100)%Q;
     Args.confidence := (9 # 10)%Q;
     Args.origin := None;
     Args.category_color := None;
     Args.category_tolerance := 8;
     Args.category_offset_x := -14;
     Args.item_color := (142, 125, 18);
     Args.item_color_tolerance := 10;
     Args.item_offset_x := 26;
     Args.item_offset_y := 12;
     Args.allow_missing_item_color := false;
     Args.dry_run := false |}.

(** Lines 293-317: the configuration built from the namespace.  A list of
    two or three integers is truthy, so [tuple(x) if x else None] keeps a
    given value and maps a missing one to [None]. *)
Definition parse_args (args : Args.t) : PlacementConfig :=
  {| anchor_template := Args.anchor_template args;
     row_height := Args.row_height args;
     list_offset_x := Args.list_offset_x args;
     list_offset_y := Args.list_offset_y args;
     screen_height := Args.screen_height args;
     spacing_pixels := Args.spacing_pixels args;
     per_row := Args.per_row args;
     click_delay := Args.click_delay args;
     place_delay := Args.place_delay args;
     scroll_clicks_per_row := Args.scroll_clicks_per_row args;
     scroll_delay := Args.scroll_delay args;
     limit := Args.limit args;
     confidence := Args.confidence args;
     placement_origin := match Args.origin args with
                         | Some p => Some p
                         | None => None
                         end;
     category_color := match Args.category_color args with
                       | Some c => Some c
                       | None => None
                       end;
     category_color_tolerance := Args.category_tolerance args;
     category_icon_offset_x := Args.category_offset_x args;
     item_color := Some (Args.item_color args);
     item_color_tolerance := Args.item_color_tolerance args;
     item_color_offset_x := Args.item_offset_x args;
     item_color_offset_y := Args.item_offset_y args;
     require_item_color := negb (Args.allow_missing_item_color args);
     dry_run := Args.dry_run args |}.

(** X15.  The defaults of the command line are the defaults of the
    dataclass: a command line that gives only the anchor template builds
    exactly [PlacementConfig(anchor_template)]. *)
Theorem parse_args_defaults template :
  parse_args (argparse_defaults template) = default_config template.
Proof. reflexivity. Qed.

(** X16.  From the command line the item colour is never [None], so the
    item-colour check can be switched off only by
    [--allow-missing-item-color]: with the flag [row_has_item_color] answers
    [True] without sampling; without it it samples exactly one pixel, for the
    colour given (or the default), and answers what the sample says, [False]
    if it raised. *)
Theorem command_line_item_check env args list_x list_y h :
  row_has_item_color env list_x list_y (parse_args args) h =
  if Args.allow_missing_item_color args then Ok true h
  else
    let answer :=
      pixelMatchesColor env h (list_x + Args.item_offset_x args)
        (list_y + Args.item_offset_y args) (Args.item_color args)
        (Args.item_color_tolerance args) in
    Ok (match answer with Some b => b | None => false end)
       (h ++ [ESample (list_x + Args.item_offset_x args)
                (list_y + Args.item_offset_y args) (Args.item_color args)
                (Args.item_color_tolerance args) answer]).
Proof.
  rewrite row_has_item_color_eq.
  cbn [parse_args item_color require_item_color item_color_offset_x
         item_color_offset_y item_color_tolerance].
  destruct (Args.allow_missing_item_color args); reflexivity.
Qed.
